(** * WarehouseModel: warehouse query execution and result cache

    A shallow embedding of
    [packages/backend/src/models/WarehouseModel/WarehouseModel.ts]:
    credential resolution, the per-project client registry, the SSH tunnel
    life cycle, the S3-backed result cache and the query orchestrator
    ([runQuery], [runMetricQuery]).

    Asynchronous methods become computations in a state-and-exception monad
    [Async]; the state carries the client registry of the model object and a
    chronological trace of the calls made to external collaborators. The
    answers of the collaborators (database tables, tunnel, object store,
    warehouse driver, clock, configuration) are collected in a [World]. *)

From Stdlib Require Import ZArith.
From stdpp Require Import base decidable option strings list gmap.

(** ** Data *)

Inductive WarehouseTypes :=
  BIGQUERY | POSTGRES | REDSHIFT | SNOWFLAKE | DATABRICKS | TRINO.

#[global] Instance WarehouseTypes_eq_dec : EqDecision WarehouseTypes.
Proof. solve_decision. Defined.

(** [CreateWarehouseCredentials]: the connection descriptor obtained by
    decrypting the stored blob. [deepEqual] of two descriptors is structural
    equality of their fields. *)
Record CreateWarehouseCredentials := mkCredentials {
  type : WarehouseTypes;
  host : string;
  port : Z;
  user : string;
  password : string;
  useSshTunnel : bool
}.

#[global] Instance CreateWarehouseCredentials_eq_dec :
  EqDecision CreateWarehouseCredentials.
Proof. solve_decision. Defined.

Definition deepEqual (a b : CreateWarehouseCredentials) : bool :=
  bool_decide (a = b).

(** A warehouse client is a JavaScript object: [client_ref] stands for its
    identity (two clients built from equal credentials are still two
    objects), [credentials] is its public field. *)
Record WarehouseClient := mkClient {
  client_ref : nat;
  credentials : CreateWarehouseCredentials
}.

#[global] Instance WarehouseClient_eq_dec : EqDecision WarehouseClient.
Proof. solve_decision. Defined.

Record RunQueryTags := mkTags {
  tag_project_uuid : option string;
  tag_user_uuid : option string;
  tag_organization_uuid : option string;
  tag_chart_uuid : option string
}.

#[global] Instance RunQueryTags_eq_dec : EqDecision RunQueryTags.
Proof. solve_decision. Defined.

(** One result row: column name and rendered value. *)
Definition Row : Type := list (string * string).

Record WarehouseResults := mkResults {
  fields : list string;
  rows : list Row
}.

Record CacheMetadata := mkCacheMetadata {
  cacheHit : bool;
  cacheUpdatedTime : option Z
}.

(** What [getResultsFromCacheOrWarehouse] returns. *)
Record QueryResults := mkQueryResults {
  qr_rows : list Row;
  qr_cacheMetadata : CacheMetadata
}.

(** What [runMetricQuery] returns. *)
Record MetricQueryResults := mkMetricQueryResults {
  mq_rows : list Row;
  mq_cacheMetadata : CacheMetadata;
  mq_query : string;
  mq_hasExampleMetric : bool;
  mq_warehouseType : WarehouseTypes
}.

(** A value found in a [UserAttributeValueMap]: a string, [null], or, when
    a property read fell through to [Object.prototype], the inherited
    member of that name. *)
Inductive AttributeValue :=
| AttrString (s : string)
| AttrNull
| AttrInherited (member : string).

#[global] Instance AttributeValue_eq_dec : EqDecision AttributeValue.
Proof. solve_decision. Defined.

(** ** Errors and settled promises *)

Inductive Origin := FromSsh | FromS3 | FromWarehouse | FromCompiler | FromJson.

Inductive Error :=
| NotExistsError (message : string)
| UnexpectedServerError (message : string)
| ExternalError (origin : Origin).

#[global] Instance Origin_eq_dec : EqDecision Origin.
Proof. solve_decision. Defined.

#[global] Instance Error_eq_dec : EqDecision Error.
Proof. solve_decision. Defined.

(** The state of a promise once it has settled. *)
Inductive settled (A : Type) :=
| Fulfilled (a : A)
| Rejected (e : Error).
Arguments Fulfilled {A} a.
Arguments Rejected {A} e.

(** ** Database tables read by the model *)

Record DbProject := mkDbProject {
  project_id : Z;
  project_uuid : string
}.

Record DbWarehouseCredentials := mkDbWarehouseCredentials {
  wc_project_id : Z;
  warehouse_type : string;
  encrypted_credentials : string
}.

Record DbOrganization := mkDbOrganization {
  organization_id : Z;
  organization_uuid : string
}.

Record DbUser := mkDbUser {
  user_id : Z;
  user_uuid : string
}.

Record DbUserAttribute := mkDbUserAttribute {
  user_attribute_uuid : string;
  name : string;
  attribute_default : option string;
  ua_organization_id : Z
}.

Record DbOrganizationMemberUserAttribute := mkDbMemberAttribute {
  ma_user_id : Z;
  ma_organization_id : Z;
  ma_user_attribute_uuid : string;
  value : string
}.

(** The tables are a store that answers every query; a lost database
    connection is outside the model. *)
Record Database := mkDatabase {
  projects : list DbProject;
  warehouse_credentials : list DbWarehouseCredentials;
  organizations : list DbOrganization;
  users : list DbUser;
  user_attributes : list DbUserAttribute;
  organization_member_user_attributes : list DbOrganizationMemberUserAttribute
}.

(** ** Object store and configuration *)

Record HeadObjectOutput := mkHead { LastModified : option Z }.

(** [Body] is optional; reading it ([transformToString]) is a promise. *)
Record GetObjectOutput := mkGetObject { Body : option (settled string) }.

Record ResultsCacheConfig := mkResultsCacheConfig {
  enabled : bool;
  cacheStateTimeSeconds : Z
}.

Record LightdashConfig := mkConfig {
  resultsCache : option ResultsCacheConfig
}.

(** ** The world outside the model

    Every field is the answer the corresponding collaborator gives during
    one invocation. Timestamps are milliseconds since the epoch. *)
Record World := mkWorld {
  lightdashConfig : LightdashConfig;
  now : Z;
  database : Database;
  ssh_connect : CreateWarehouseCredentials -> settled CreateWarehouseCredentials;
  ssh_disconnect : settled unit;
  s3_getResultsMetadata : string -> settled (option HeadObjectOutput);
  s3_getResults : string -> settled GetObjectOutput;
  s3_uploadResults : string -> string -> option RunQueryTags -> settled unit;
  warehouse_runQuery :
    WarehouseClient -> string -> option RunQueryTags -> settled WarehouseResults
}.

(** Pure collaborators: node's [crypto], the encryption service, [JSON] and
    the query compiler. A [None] answer stands for a thrown exception. *)
Class Collaborators := {
  MetricQuery : Type;
  Explore : Type;
  CompiledMetricQuery : Type;
  sha256_hex : string -> string;
  decrypt : string -> option string;
  JSON_parse_credentials : string -> option CreateWarehouseCredentials;
  JSON_parse_rows : string -> option (list Row);
  JSON_stringify : WarehouseResults -> option string;
  queryCompiler_compileMetricQuery :
    Explore -> MetricQuery -> WarehouseClient -> option CompiledMetricQuery;
  queryBuilder_buildQuery :
    Explore -> CompiledMetricQuery -> WarehouseClient ->
    gmap string AttributeValue -> option (string * bool)
}.

(** ** The [Async] monad *)

Inductive Event :=
| TunnelConnected (effective : CreateWarehouseCredentials)
| TunnelDisconnect
| S3GetResultsMetadata (key : string)
| S3GetResults (key : string)
| S3UploadResults (key : string) (body : string) (tags : option RunQueryTags)
| WarehouseRunQuery
    (client : WarehouseClient) (query : string) (tags : option RunQueryTags).

#[global] Instance Event_eq_dec : EqDecision Event.
Proof. solve_decision. Defined.

(** The state of the model object and of the process around it:
    the private registry [cachedWarehouseClients], the number of client
    objects constructed so far, the calls made to the outside (oldest
    first), and the rejections of promises nobody handles. *)
Record Model := mkModel {
  cachedWarehouseClients : gmap string WarehouseClient;
  allocated : nat;
  trace : list Event;
  unhandledRejections : list Error
}.

Definition Async (A : Type) : Type := Model -> settled A * Model.

#[global] Instance Async_ret : MRet Async :=
  fun A (a : A) (m : Model) => (Fulfilled a, m).

#[global] Instance Async_bind : MBind Async :=
  fun A B (k : A -> Async B) (c : Async A) (m : Model) =>
    match c m with
    | (Fulfilled a, m') => k a m'
    | (Rejected e, m') => (Rejected e, m')
    end.

Definition throw {A} (e : Error) : Async A :=
  fun m => (Rejected e, m).

(** [await p] on a promise that has settled as [p]. *)
Definition await {A} (p : settled A) : Async A :=
  fun m => (p, m).

(** A synchronous call that may throw. *)
Definition attempt {A} (origin : Origin) (r : option A) : Async A :=
  match r with
  | Some a => mret a
  | None => throw (ExternalError origin)
  end.

(** The model after one more call to the outside. *)
Definition record (e : Event) (m : Model) : Model :=
  mkModel (cachedWarehouseClients m) (allocated m) (trace m ++ [e])
    (unhandledRejections m).

Definition emit (e : Event) : Async unit :=
  fun m => (Fulfilled tt, record e m).

Definition get_model : Async Model :=
  fun m => (Fulfilled m, m).

(** [promise.catch((e) => undefined)] *)
Definition catch_undefined {A} (c : Async A) : Async (option A) :=
  fun m =>
    match c m with
    | (Fulfilled a, m') => (Fulfilled (Some a), m')
    | (Rejected _, m') => (Fulfilled None, m')
    end.

(** A promise that is started and never awaited: the caller goes on with
    [undefined] whatever the outcome, and a rejection that no handler took
    is recorded as unhandled. *)
Definition fire_and_forget {A} (c : Async A) : Async unit :=
  fun m =>
    match c m with
    | (Fulfilled _, m') => (Fulfilled tt, m')
    | (Rejected e, m') =>
        (Fulfilled tt,
         mkModel (cachedWarehouseClients m') (allocated m') (trace m')
           (unhandledRejections m' ++ [e]))
    end.

Definition truthy_string (s : string) : bool :=
  negb (bool_decide (s = EmptyString)).

(** ** The methods of [WarehouseModel] *)

Section WarehouseModel.
Context {lib : Collaborators}.
Variable w : World.

(** The query of [getWarehouseCredentialsForProject]: [warehouse_credentials]
    inner-joined with [projects] on [project_id], restricted to the project. *)
Definition select_warehouse_credentials (projectUuid : string)
  : list DbWarehouseCredentials :=
  flat_map
    (fun wc =>
       flat_map
         (fun p =>
            if bool_decide (wc_project_id wc = project_id p)
               && bool_decide (project_uuid p = projectUuid)
            then [wc] else [])
         (projects (database w)))
    (warehouse_credentials (database w)).

Definition getWarehouseCredentialsForProject (projectUuid : string)
  : Async CreateWarehouseCredentials :=
  match select_warehouse_credentials projectUuid with
  | [] =>
      throw (NotExistsError "Cannot find any warehouse credentials for project.")
  | row :: _ =>
      match decrypt (encrypted_credentials row) ≫= JSON_parse_credentials with
      | Some parsed => mret parsed
      | None =>
          throw (UnexpectedServerError
                   "Unexpected error: failed to parse warehouse credentials")
      end
  end.

(** A left join: every left row paired with each matching right row, or
    with [None] when no right row matches. *)
Definition leftJoin {L R J : Type} (on : J -> R -> bool)
    (left : list (L * J)) (right : list R) : list (L * option R) :=
  flat_map
    (fun lj =>
       match List.filter (on lj.2) right with
       | [] => [(lj.1, None)]
       | matches => map (fun r => (lj.1, Some r)) matches
       end)
    left.

(** A [where] on a column of a joined table keeps no row whose column is
    [NULL]. *)
Definition column_is {R} (col : R -> string) (v : string) (r : option R)
  : bool :=
  match r with
  | Some x => bool_decide (col x = v)
  | None => false
  end.

(** First query: the attributes of the organization with their defaults. *)
Definition select_attribute_defaults (organizationUuid : string)
  : list (string * option string) :=
  map (fun r => (name r.1, attribute_default r.1))
    (List.filter (fun r => column_is organization_uuid organizationUuid r.2)
       (leftJoin (fun oid o => bool_decide (oid = organization_id o))
          (map (fun a => (a, ua_organization_id a)) (user_attributes (database w)))
          (organizations (database w)))).

(** Second query: the values set for the user in the organization, with the
    name of the attribute each one belongs to ([None]: no such attribute). *)
Definition select_user_values (organizationUuid userUuid : string)
  : list (option string * string) :=
  let members := organization_member_user_attributes (database w) in
  let with_users :=
    leftJoin (fun uid u => bool_decide (uid = user_id u))
      (map (fun m => (m, ma_user_id m)) members) (users (database w)) in
  let with_orgs :=
    leftJoin (fun oid o => bool_decide (oid = organization_id o))
      (map (fun mu => (mu, ma_organization_id mu.1)) with_users)
      (organizations (database w)) in
  let with_attrs :=
    leftJoin (fun uuid a => bool_decide (uuid = user_attribute_uuid a))
      (map (fun muo => (muo, ma_user_attribute_uuid muo.1.1)) with_orgs)
      (user_attributes (database w)) in
  map (fun r => (name <$> r.2, value r.1.1.1))
    (List.filter
       (fun r => column_is organization_uuid organizationUuid r.1.2
                 && column_is user_uuid userUuid r.1.1.2)
       with_attrs).

(** The members every plain object inherits from [Object.prototype]. *)
Definition Object_prototype : list string :=
  ["constructor"; "__defineGetter__"; "__defineSetter__"; "hasOwnProperty";
   "__lookupGetter__"; "__lookupSetter__"; "isPrototypeOf";
   "propertyIsEnumerable"; "toString"; "valueOf"; "__proto__";
   "toLocaleString"].

(** [obj[key]] on a plain object holding strings: [None] is [undefined]. *)
Definition property (obj : gmap string string) (key : string)
  : option AttributeValue :=
  match obj !! key with
  | Some v => Some (AttrString v)
  | None =>
      if bool_decide (key ∈ Object_prototype)
      then Some (AttrInherited key) else None
  end.

Definition truthy (v : option AttributeValue) : bool :=
  match v with
  | Some (AttrString s) => truthy_string s
  | Some AttrNull => false
  | Some (AttrInherited _) => true
  | None => false
  end.

(** A [null] column used as a property key reads ["null"]. *)
Definition property_key (column : option string) : string :=
  default "null" column.

Definition nullable (column : option string) : AttributeValue :=
  match column with
  | Some s => AttrString s
  | None => AttrNull
  end.

(** [userValues.reduce((acc, row) => ({ ...acc, [row.name]: row.value }), {})] *)
Definition userValuesMap (userValues : list (option string * string))
  : gmap string string :=
  fold_left (fun acc row => <[property_key row.1 := row.2]> acc) userValues ∅.

(** [userValuesMap[row.name] || row.attribute_default] *)
Definition value_or_default (uvm : gmap string string)
    (row : string * option string) : AttributeValue :=
  match property uvm row.1 with
  | Some v => if truthy (Some v) then v else nullable row.2
  | None => nullable row.2
  end.

Definition combine_values (uvm : gmap string string)
    (attributeValues : list (string * option string))
  : gmap string AttributeValue :=
  fold_left (fun acc row => <[row.1 := value_or_default uvm row]> acc)
    attributeValues ∅.

(** The map [getAttributeValuesForOrgMember] resolves to. *)
Definition attribute_values (organizationUuid userUuid : string)
  : gmap string AttributeValue :=
  let attributeValues := select_attribute_defaults organizationUuid in
  let userValues := select_user_values organizationUuid userUuid in
  combine_values (userValuesMap userValues) attributeValues.

Definition getAttributeValuesForOrgMember (organizationUuid userUuid : string)
  : Async (gmap string AttributeValue) :=
  mret (attribute_values organizationUuid userUuid).

(** [warehouseClientFromCredentials(credentials)]: a new client object
    holding the credentials it was built from. *)
Definition getWarehouseClientFromCredentials
    (creds : CreateWarehouseCredentials) : Async WarehouseClient :=
  fun m =>
    (Fulfilled (mkClient (allocated m) creds),
     mkModel (cachedWarehouseClients m) (S (allocated m)) (trace m)
       (unhandledRejections m)).

(** [this.cachedWarehouseClients[projectUuid] = client] *)
Definition cache_client (projectUuid : string) (client : WarehouseClient)
  : Async unit :=
  fun m =>
    (Fulfilled tt,
     mkModel (<[projectUuid := client]> (cachedWarehouseClients m))
       (allocated m) (trace m) (unhandledRejections m)).

(** The tunnel object created for one call. *)
Record SshTunnel := mkSshTunnel {
  originalCredentials : CreateWarehouseCredentials
}.

Definition SshTunnel_connect (t : SshTunnel)
  : Async CreateWarehouseCredentials :=
  effective ← await (ssh_connect w (originalCredentials t));
  emit (TunnelConnected effective);;
  mret effective.

Definition SshTunnel_disconnect (t : SshTunnel) : Async unit :=
  emit TunnelDisconnect;;
  await (ssh_disconnect w).

(** The registry is read at keys that passed the credentials query above,
    hence at project UUIDs held by the [projects] table. The test
    [existingClient && deepEqual(existingClient.credentials, ...)] is the
    [match] and the [if] below. *)
Definition getWarehouseClient (projectUuid : string)
  : Async (WarehouseClient * SshTunnel) :=
  creds ← getWarehouseCredentialsForProject projectUuid;
  let sshTunnel := mkSshTunnel creds in
  warehouseSshCredentials ← SshTunnel_connect sshTunnel;
  m ← get_model;
  let existingClient := cachedWarehouseClients m !! projectUuid in
  let construct : Async (WarehouseClient * SshTunnel) :=
    client ← getWarehouseClientFromCredentials warehouseSshCredentials;
    cache_client projectUuid client;;
    mret (client, sshTunnel) in
  match existingClient with
  | Some existing =>
      if deepEqual (credentials existing) warehouseSshCredentials
      then mret (existing, sshTunnel)
      else construct
  | None => construct
  end.

(** [lightdashConfig.resultsCache?.enabled] *)
Definition resultsCache_enabled : bool :=
  match resultsCache (lightdashConfig w) with
  | Some c => enabled c
  | None => false
  end.

(** The cache key: the hex SHA-256 digest of
    [`${projectUuid}.${query}`]. A text is the string of bytes that
    [update] feeds to the hash. *)
Definition queryHash (projectUuid query : string) : string :=
  sha256_hex (projectUuid +:+ "." +:+ query).

(** The first [if] block of [getResultsFromCacheOrWarehouse]: [Some r] when
    the block returns [r] from the method, [None] when control falls out of
    the block. *)
Definition read_results_cache (key : string) : Async (option QueryResults) :=
  match resultsCache (lightdashConfig w) with
  | Some config =>
      if enabled config then
        cacheEntryMetadata ←
          catch_undefined
            (emit (S3GetResultsMetadata key);;
             await (s3_getResultsMetadata w key));
        match mjoin cacheEntryMetadata ≫= LastModified with
        | Some lastModified =>
            if bool_decide
                 (now w - lastModified < cacheStateTimeSeconds config * 1000)%Z
            then
              emit (S3GetResults key);;
              cacheEntry ← await (s3_getResults w key);
              stringResults ←
                match Body cacheEntry with
                | Some transformToString =>
                    s ← await transformToString; mret (Some s)
                | None => mret None
                end;
              match stringResults with
              | Some s =>
                  if truthy_string s then
                    match JSON_parse_rows s with
                    | Some parsed =>
                        mret (Some (mkQueryResults parsed
                                      (mkCacheMetadata true (Some lastModified))))
                    | None => mret None
                    end
                  else mret None
              | None => mret None
              end
            else mret None
        | None => mret None
        end
      else mret None
  | None => mret None
  end.

(** The second [if] block: the write-back after a warehouse execution. *)
Definition write_results_cache (key : string)
    (warehouseResults : WarehouseResults) (queryTags : option RunQueryTags)
  : Async unit :=
  if resultsCache_enabled then
    buffer ← attempt FromJson (JSON_stringify warehouseResults);
    fire_and_forget
      (catch_undefined
         (emit (S3UploadResults key buffer queryTags);;
          await (s3_uploadResults w key buffer queryTags)))
  else mret tt.

(** The span [runWarehouseQuery]: [warehouseClient.runQuery(query, queryTags)]. *)
Definition runWarehouseQuery (warehouseClient : WarehouseClient)
    (query : string) (queryTags : option RunQueryTags)
  : Async WarehouseResults :=
  emit (WarehouseRunQuery warehouseClient query queryTags);;
  await (warehouse_runQuery w warehouseClient query queryTags).

(** [wrapOtelSpan] runs its callback and hands on what it returns or throws;
    spans and log lines leave no mark on the result. *)
Definition getResultsFromCacheOrWarehouse (projectUuid : string)
    (warehouseClient : WarehouseClient) (query : string)
    (metricQuery : MetricQuery) (queryTags : option RunQueryTags)
  : Async QueryResults :=
  let key := queryHash projectUuid query in
  cached ← read_results_cache key;
  match cached with
  | Some results => mret results
  | None =>
      warehouseResults ← runWarehouseQuery warehouseClient query queryTags;
      write_results_cache key warehouseResults queryTags;;
      mret (mkQueryResults (rows warehouseResults)
              (mkCacheMetadata false None))
  end.

Definition runQuery (projectUuid query : string) (queryTags : RunQueryTags)
  : Async WarehouseResults :=
  '(warehouseClient, sshTunnel) ← getWarehouseClient projectUuid;
  emit (WarehouseRunQuery warehouseClient query (Some queryTags));;
  results ←
    await (warehouse_runQuery w warehouseClient query (Some queryTags));
  SshTunnel_disconnect sshTunnel;;
  mret results.

Definition compileMetricQuery (organizationUuid projectUuid userUuid : string)
    (metricQuery : MetricQuery) (explore : Explore)
  : Async (string * bool) :=
  '(warehouseClient, sshTunnel) ← getWarehouseClient projectUuid;
  userAttributes ← getAttributeValuesForOrgMember organizationUuid userUuid;
  compiledMetricQuery ←
    attempt FromCompiler
      (queryCompiler_compileMetricQuery explore metricQuery warehouseClient);
  attempt FromCompiler
    (queryBuilder_buildQuery explore compiledMetricQuery warehouseClient
       userAttributes).

Definition runMetricQuery (organizationUuid projectUuid userUuid : string)
    (metricQuery : MetricQuery) (queryTags : option RunQueryTags)
    (explore : Explore)
  : Async MetricQueryResults :=
  '(warehouseClient, sshTunnel) ← getWarehouseClient projectUuid;
  userAttributes ← getAttributeValuesForOrgMember organizationUuid userUuid;
  compiledMetricQuery ←
    attempt FromCompiler
      (queryCompiler_compileMetricQuery explore metricQuery warehouseClient);
  '(query, hasExampleMetric) ←
    attempt FromCompiler
      (queryBuilder_buildQuery explore compiledMetricQuery warehouseClient
         userAttributes);
  results ←
    getResultsFromCacheOrWarehouse projectUuid warehouseClient query
      metricQuery queryTags;
  SshTunnel_disconnect sshTunnel;;
  mret (mkMetricQueryResults (qr_rows results) (qr_cacheMetadata results)
          query hasExampleMetric (type (credentials warehouseClient))).

End WarehouseModel.

(** ** Reading a trace *)

Definition is_cache_read (e : Event) : bool :=
  match e with
  | S3GetResultsMetadata _ | S3GetResults _ => true
  | _ => false
  end.

Definition is_payload_read (e : Event) : bool :=
  match e with
  | S3GetResults _ => true
  | _ => false
  end.

Definition is_cache_write (e : Event) : bool :=
  match e with
  | S3UploadResults _ _ _ => true
  | _ => false
  end.

Definition is_connect (e : Event) : bool :=
  match e with
  | TunnelConnected _ => true
  | _ => false
  end.

Definition is_disconnect (e : Event) : bool :=
  match e with
  | TunnelDisconnect => true
  | _ => false
  end.

Definition is_warehouse_run (e : Event) : bool :=
  match e with
  | WarehouseRunQuery _ _ _ => true
  | _ => false
  end.

(** The cache key an object-store call carries. *)
Definition cache_key_of (e : Event) : option string :=
  match e with
  | S3GetResultsMetadata k | S3GetResults k | S3UploadResults k _ _ => Some k
  | _ => None
  end.

Definition count_events (p : Event -> bool) (t : list Event) : nat :=
  length (List.filter p t).

(** [c], started in any state, adds to the trace only events that
    satisfy [P] and leaves no rejection unhandled. *)
Definition emits_only {A} (P : Event -> Prop) (c : Async A) : Prop :=
  ∀ m,
    (∃ evs, trace (c m).2 = trace m ++ evs ∧ Forall P evs) ∧
    unhandledRejections (c m).2 = unhandledRejections m.

(** Every client held by the registry was constructed earlier. *)
Definition registry_wf (m : Model) : Prop :=
  ∀ k c, cachedWarehouseClients m !! k = Some c → client_ref c < allocated m.

(** The value bound to [n] by the last row of [l] that carries [n]: a
    [reduce] that spreads the accumulator lets later rows overwrite
    earlier ones. *)
Fixpoint last_named {V} (n : string) (l : list (string * V)) : option V :=
  match l with
  | [] => None
  | (k, v) :: rest =>
      match last_named n rest with
      | Some later => Some later
      | None => if bool_decide (k = n) then Some v else None
      end
  end.

(** ** Replacing one answer of the world *)

Definition with_uploadResults
    (answer : string -> string -> option RunQueryTags -> settled unit)
    (w : World) : World :=
  mkWorld (lightdashConfig w) (now w) (database w) (ssh_connect w)
    (ssh_disconnect w) (s3_getResultsMetadata w) (s3_getResults w) answer
    (warehouse_runQuery w).

Definition with_getResultsMetadata
    (answer : string -> settled (option HeadObjectOutput)) (w : World)
  : World :=
  mkWorld (lightdashConfig w) (now w) (database w) (ssh_connect w)
    (ssh_disconnect w) answer (s3_getResults w) (s3_uploadResults w)
    (warehouse_runQuery w).

Definition with_getResults (answer : string -> settled GetObjectOutput)
    (w : World) : World :=
  mkWorld (lightdashConfig w) (now w) (database w) (ssh_connect w)
    (ssh_disconnect w) (s3_getResultsMetadata w) answer (s3_uploadResults w)
    (warehouse_runQuery w).

Definition with_runQuery
    (answer : WarehouseClient -> string -> option RunQueryTags ->
              settled WarehouseResults)
    (w : World) : World :=
  mkWorld (lightdashConfig w) (now w) (database w) (ssh_connect w)
    (ssh_disconnect w) (s3_getResultsMetadata w) (s3_getResults w)
    (s3_uploadResults w) answer.

Definition with_config (config : LightdashConfig) (w : World) : World :=
  mkWorld config (now w) (database w) (ssh_connect w) (ssh_disconnect w)
    (s3_getResultsMetadata w) (s3_getResults w) (s3_uploadResults w)
    (warehouse_runQuery w).

Definition with_now (t : Z) (w : World) : World :=
  mkWorld (lightdashConfig w) t (database w) (ssh_connect w)
    (ssh_disconnect w) (s3_getResultsMetadata w) (s3_getResults w)
    (s3_uploadResults w) (warehouse_runQuery w).

(** ** Stub collaborators and a sample deployment *)

Definition pg_direct : CreateWarehouseCredentials :=
  mkCredentials POSTGRES "db.example.com" 5432 "bi" "hunter2" false.

Definition pg_ssh : CreateWarehouseCredentials :=
  mkCredentials POSTGRES "db.internal" 5432 "bi" "hunter2" true.

(** The descriptor a tunnel hands back: same descriptor, pointing at the
    local end of the tunnel. *)
Definition through_tunnel (localPort : Z) (c : CreateWarehouseCredentials)
  : CreateWarehouseCredentials :=
  mkCredentials (type c) "127.0.0.1" localPort (user c) (password c)
    (useSshTunnel c).

Definition sample_rows : list Row :=
  [[("orders_status", "shipped"); ("orders_count", "12")];
   [("orders_status", "returned"); ("orders_count", "3")]].

Definition sample_results : WarehouseResults :=
  mkResults ["orders_status"; "orders_count"] sample_rows.

Definition cached_rows : list Row :=
  [[("orders_status", "shipped"); ("orders_count", "11")]].

Definition stub_collaborators : Collaborators := {|
  MetricQuery := string;
  Explore := string;
  CompiledMetricQuery := string;
  sha256_hex := fun text => "sha256:" +:+ text;
  decrypt := fun blob =>
    if bool_decide (blob = "garbled") then None else Some blob;
  JSON_parse_credentials := fun text =>
    if bool_decide (text = "pg_direct") then Some pg_direct
    else if bool_decide (text = "pg_ssh") then Some pg_ssh
    else None;
  JSON_parse_rows := fun text =>
    if bool_decide (text = "cached payload") then Some cached_rows else None;
  JSON_stringify := fun _ => Some "fresh payload";
  queryCompiler_compileMetricQuery := fun _ metricQuery _ => Some metricQuery;
  queryBuilder_buildQuery := fun _ compiled _ _ =>
    Some ("SELECT " +:+ compiled, false)
|}.

Definition sample_database : Database := {|
  projects := [mkDbProject 1 "p1"; mkDbProject 2 "p2"; mkDbProject 3 "p3";
               mkDbProject 4 "p4"];
  warehouse_credentials :=
    [mkDbWarehouseCredentials 1 "postgres" "pg_direct";
     mkDbWarehouseCredentials 2 "postgres" "pg_ssh";
     mkDbWarehouseCredentials 3 "postgres" "garbled"];
  organizations := [mkDbOrganization 1 "org-1"; mkDbOrganization 2 "org-2"];
  users := [mkDbUser 10 "user-1"; mkDbUser 11 "user-2"];
  user_attributes :=
    [mkDbUserAttribute "attr-region" "region" (Some "EU") 1;
     mkDbUserAttribute "attr-team" "team" None 1;
     mkDbUserAttribute "attr-tier" "tier" (Some "free") 2];
  organization_member_user_attributes :=
    [mkDbMemberAttribute 10 1 "attr-region" EmptyString;
     mkDbMemberAttribute 10 1 "attr-team" "data";
     mkDbMemberAttribute 10 1 "attr-tier" "gold";
     mkDbMemberAttribute 11 1 "attr-region" "US"]
|}.

(** Caching on with a threshold of one hour, an empty object store, a
    tunnel that binds local port 50000 and a warehouse that answers. *)
Definition sample_world : World := {|
  lightdashConfig := mkConfig (Some (mkResultsCacheConfig true 3600));
  now := 1700000000000;
  database := sample_database;
  ssh_connect := fun c =>
    Fulfilled (if useSshTunnel c then through_tunnel 50000 c else c);
  ssh_disconnect := Fulfilled tt;
  s3_getResultsMetadata := fun _ => Fulfilled None;
  s3_getResults := fun _ => Fulfilled (mkGetObject None);
  s3_uploadResults := fun _ _ _ => Fulfilled tt;
  warehouse_runQuery := fun _ _ _ => Fulfilled sample_results
|}.

Definition fresh_model : Model := mkModel ∅ 0 [] [].

Definition sample_tags : RunQueryTags :=
  mkTags (Some "p1") (Some "user-1") (Some "org-1") None.

(** One second before [now]: inside the hour. *)
Definition fresh_head : HeadObjectOutput := mkHead (Some 1699999999000%Z).

(** Exactly one hour before [now]: on the threshold. *)
Definition stale_head : HeadObjectOutput := mkHead (Some 1699996400000%Z).

Definition readable_payload : GetObjectOutput :=
  mkGetObject (Some (Fulfilled "cached payload")).

(** The object store holds a fresh, readable entry for every key. *)
Definition world_fresh_entry : World :=
  with_getResults (fun _ => Fulfilled readable_payload)
    (with_getResultsMetadata (fun _ => Fulfilled (Some fresh_head))
       sample_world).

(** The entries are one hour old to the millisecond. *)
Definition world_stale_entry : World :=
  with_getResults (fun _ => Fulfilled readable_payload)
    (with_getResultsMetadata (fun _ => Fulfilled (Some stale_head))
       sample_world).

(** The metadata of a fresh entry can be read, its payload cannot. *)
Definition world_payload_unreadable : World :=
  with_getResults (fun _ => Rejected (ExternalError FromS3))
    (with_getResultsMetadata (fun _ => Fulfilled (Some fresh_head))
       sample_world).

(** The object store refuses the metadata request. *)
Definition world_metadata_unreadable : World :=
  with_getResultsMetadata (fun _ => Rejected (ExternalError FromS3))
    sample_world.

(** The warehouse refuses every query. *)
Definition world_warehouse_down : World :=
  with_runQuery (fun _ _ _ => Rejected (ExternalError FromWarehouse))
    sample_world.

(** The object store refuses every upload. *)
Definition world_upload_fails : World :=
  with_uploadResults (fun _ _ _ => Rejected (ExternalError FromS3))
    sample_world.

(** Fresh entries in the store, caching switched off. *)
Definition world_caching_off : World :=
  with_config (mkConfig (Some (mkResultsCacheConfig false 3600)))
    world_fresh_entry.

(** Following the spec's words for the attribute overrides: the union of
    the organization defaults and the user's overrides, the user's value
    winning for every name where both exist. *)
Definition spec_attribute_overrides (w : World)
    (organizationUuid userUuid : string) : gmap string AttributeValue :=
  let defaults :=
    fold_left (fun acc row => <[row.1 := nullable row.2]> acc)
      (select_attribute_defaults w organizationUuid) ∅ in
  let overrides :=
    AttrString <$> userValuesMap (select_user_values w organizationUuid userUuid)
  in
  overrides ∪ defaults.

(** The sample calls: user [user-1] of [org-1] asks for the metric query
    [orders]; the stub compiler turns it into [SELECT orders]. *)
Definition sample_runMetricQuery (w : World) (projectUuid : string)
  : Async MetricQueryResults :=
  runMetricQuery (lib := stub_collaborators) w "org-1" projectUuid "user-1"
    "orders" (Some sample_tags) "explore".

Definition sample_runQuery (w : World) (projectUuid : string)
  : Async WarehouseResults :=
  runQuery (lib := stub_collaborators) w projectUuid "SELECT 1" sample_tags.

Definition sample_getWarehouseClient (w : World) (projectUuid : string)
  : Async (WarehouseClient * SshTunnel) :=
  getWarehouseClient (lib := stub_collaborators) w projectUuid.

Definition sample_key (projectUuid : string) : string :=
  queryHash (lib := stub_collaborators) projectUuid "SELECT orders".

(** ** Vocabulary of the further properties *)

(** [cacheEntryMetadata?.LastModified], read off the answer to the metadata
    request once [.catch] has turned a rejection into [undefined]. *)
Definition lastModified_of (answer : settled (option HeadObjectOutput))
  : option Z :=
  match answer with
  | Fulfilled (Some head) => LastModified head
  | _ => None
  end.

(** A payload the lookup can read and cannot use: no [Body], an empty
    string, or a text [JSON.parse] refuses. *)
Definition unusable_payload {lib : Collaborators} (entry : GetObjectOutput)
  : Prop :=
  match Body entry with
  | None => True
  | Some (Fulfilled text) =>
      text = EmptyString ∨ JSON_parse_rows text = None
  | Some (Rejected _) => False
  end.

(** No full stop occurs in the text (as in a UUID). *)
Fixpoint dot_free (s : string) : bool :=
  match s with
  | EmptyString => true
  | String c rest =>
      negb (bool_decide (String c EmptyString = ".")) && dot_free rest
  end.

Definition with_ssh_disconnect (answer : settled unit) (w : World) : World :=
  mkWorld (lightdashConfig w) (now w) (database w) (ssh_connect w) answer
    (s3_getResultsMetadata w) (s3_getResults w) (s3_uploadResults w)
    (warehouse_runQuery w).

(** The world with other rows in [organization_member_user_attributes]. *)
Definition with_member_attributes
    (members : list DbOrganizationMemberUserAttribute) (w : World) : World :=
  mkWorld (lightdashConfig w) (now w)
    (mkDatabase (projects (database w)) (warehouse_credentials (database w))
       (organizations (database w)) (users (database w))
       (user_attributes (database w)) members)
    (ssh_connect w) (ssh_disconnect w) (s3_getResultsMetadata w)
    (s3_getResults w) (s3_uploadResults w) (warehouse_runQuery w).

(** ** Further stubs and worlds *)

(** Collaborators whose compiler refuses the metric query [no_such_field]
    and whose [JSON.parse] reads back what [JSON.stringify] wrote. *)
Definition strict_collaborators : Collaborators := {|
  MetricQuery := string;
  Explore := string;
  CompiledMetricQuery := string;
  sha256_hex := fun text => "sha256:" +:+ text;
  decrypt := fun blob =>
    if bool_decide (blob = "garbled") then None else Some blob;
  JSON_parse_credentials := fun text =>
    if bool_decide (text = "pg_direct") then Some pg_direct
    else if bool_decide (text = "pg_ssh") then Some pg_ssh
    else None;
  JSON_parse_rows := fun text =>
    if bool_decide (text = "fresh payload") then Some sample_rows else None;
  JSON_stringify := fun _ => Some "fresh payload";
  queryCompiler_compileMetricQuery := fun _ metricQuery _ =>
    if bool_decide (metricQuery = "no_such_field") then None
    else Some metricQuery;
  queryBuilder_buildQuery := fun _ compiled _ _ =>
    Some ("SELECT " +:+ compiled, false)
|}.

(** The store holds a fresh entry whose payload is not JSON. *)
Definition world_corrupt_payload : World :=
  with_getResults
    (fun _ => Fulfilled (mkGetObject (Some (Fulfilled "<html>503</html>"))))
    (with_getResultsMetadata (fun _ => Fulfilled (Some fresh_head))
       sample_world).

(** The store holds, as a fresh entry, what the sample call uploads. *)
Definition world_uploaded_entry : World :=
  with_getResults
    (fun _ => Fulfilled (mkGetObject (Some (Fulfilled "fresh payload"))))
    (with_getResultsMetadata (fun _ => Fulfilled (Some fresh_head))
       sample_world).

(** Collaborators whose [JSON.stringify] throws on the results of the
    warehouse, as it does on a row that holds a [BigInt]. *)
Definition unserializable_collaborators : Collaborators := {|
  MetricQuery := string;
  Explore := string;
  CompiledMetricQuery := string;
  sha256_hex := fun text => "sha256:" +:+ text;
  decrypt := fun blob =>
    if bool_decide (blob = "garbled") then None else Some blob;
  JSON_parse_credentials := fun text =>
    if bool_decide (text = "pg_direct") then Some pg_direct
    else if bool_decide (text = "pg_ssh") then Some pg_ssh
    else None;
  JSON_parse_rows := fun text =>
    if bool_decide (text = "cached payload") then Some cached_rows else None;
  JSON_stringify := fun _ => None;
  queryCompiler_compileMetricQuery := fun _ metricQuery _ => Some metricQuery;
  queryBuilder_buildQuery := fun _ compiled _ _ =>
    Some ("SELECT " +:+ compiled, false)
|}.

(** The tunnel cannot be torn down. *)
Definition world_disconnect_fails : World :=
  with_ssh_disconnect (Rejected (ExternalError FromSsh)) sample_world.

(** What the sample calls return when the warehouse answers. *)
Definition sample_miss : MetricQueryResults :=
  mkMetricQueryResults sample_rows (mkCacheMetadata false None)
    "SELECT orders" false POSTGRES.

Definition sample_hit : MetricQueryResults :=
  mkMetricQueryResults cached_rows
    (mkCacheMetadata true (LastModified fresh_head)) "SELECT orders" false
    POSTGRES.

(** A value stored for [user-2]. *)
Definition other_users_row : DbOrganizationMemberUserAttribute :=
  mkDbMemberAttribute 11 1 "attr-team" "ops".

(** * Properties *)

Section Properties.
Context {lib : Collaborators}.

(** Take the hypothesis just introduced apart and close the goal when the
    pieces contradict each other. *)
Ltac break_hyps :=
  intros;
  repeat match goal with
         | H : ∃ _, _ |- _ => destruct H
         | H : _ ∧ _ |- _ => destruct H
         | H : _ ∨ _ |- _ => destruct H
         end;
  simplify_eq/=; try done.

(** ** What a computation adds to the trace *)

Section Emits.
Context (P : Event → Prop).

Lemma emits_only_mret {A} (a : A) : emits_only P (mret a).
Proof. intros m. split; [exists []; by rewrite app_nil_r | done]. Qed.

Lemma emits_only_throw {A} (e : Error) : emits_only P (@throw A e).
Proof. intros m. split; [exists []; by rewrite app_nil_r | done]. Qed.

Lemma emits_only_await {A} (p : settled A) : emits_only P (await p).
Proof. intros m. split; [exists []; by rewrite app_nil_r | done]. Qed.

Lemma emits_only_attempt {A} (o : Origin) (r : option A) :
  emits_only P (attempt o r).
Proof. destruct r; [apply emits_only_mret | apply emits_only_throw]. Qed.

Lemma emits_only_get_model : emits_only P get_model.
Proof. intros m. split; [exists []; by rewrite app_nil_r | done]. Qed.

Lemma emits_only_emit (e : Event) : P e → emits_only P (emit e).
Proof. intros He m. split; [exists [e]; by repeat constructor | done]. Qed.

Lemma emits_only_bind {A B} (c : Async A) (k : A → Async B) :
  emits_only P c → (∀ a, emits_only P (k a)) → emits_only P (c ≫= k).
Proof.
  intros Hc Hk m. unfold mbind, Async_bind.
  destruct (Hc m) as [(evs & Htr & Hevs) Hun].
  destruct (c m) as [[a|e] m1]; simpl in *; [| by eauto].
  destruct (Hk a m1) as [(evs' & Htr' & Hevs') Hun'].
  split; [| congruence].
  exists (evs ++ evs'). rewrite Htr', Htr, app_assoc.
  split; [done | by apply Forall_app].
Qed.

Lemma emits_only_catch_undefined {A} (c : Async A) :
  emits_only P c → emits_only P (catch_undefined c).
Proof.
  intros Hc m. unfold catch_undefined.
  specialize (Hc m). by destruct (c m) as [[a|e] m1].
Qed.

(** A detached promise whose rejection is caught leaves nothing behind. *)
Lemma emits_only_fire_and_forget_caught {A} (c : Async A) :
  emits_only P c → emits_only P (fire_and_forget (catch_undefined c)).
Proof.
  intros Hc m. unfold fire_and_forget, catch_undefined.
  specialize (Hc m). by destruct (c m) as [[a|e] m1].
Qed.

Lemma emits_only_getWarehouseClientFromCredentials creds :
  emits_only P (getWarehouseClientFromCredentials creds).
Proof. intros m. split; [exists []; by rewrite app_nil_r | done]. Qed.

Lemma emits_only_cache_client (p : string) client :
  emits_only P (cache_client p client).
Proof. intros m. split; [exists []; by rewrite app_nil_r | done]. Qed.

End Emits.

Lemma emits_only_weaken {A} (P Q : Event → Prop) (c : Async A) :
  (∀ e, P e → Q e) → emits_only P c → emits_only Q c.
Proof.
  intros HPQ Hc m. destruct (Hc m) as [(evs & Htr & Hevs) Hun].
  split; [| done]. exists evs. split; [done |].
  eapply Forall_impl; eauto.
Qed.

Create HintDb emits discriminated.

(** Walk through a method, one statement at a time. *)
Ltac emits_step :=
  first
    [ solve [auto with emits]
    | match goal with
      | |- emits_only _ (_ ≫= _) => apply emits_only_bind; [| intros ?]
      | |- emits_only _ (mret _) => apply emits_only_mret
      | |- emits_only _ (throw _) => apply emits_only_throw
      | |- emits_only _ (await _) => apply emits_only_await
      | |- emits_only _ (attempt _ _) => apply emits_only_attempt
      | |- emits_only _ get_model => apply emits_only_get_model
      | |- emits_only _ (getWarehouseClientFromCredentials _) =>
          apply emits_only_getWarehouseClientFromCredentials
      | |- emits_only _ (cache_client _ _) => apply emits_only_cache_client
      | |- emits_only _ (emit _) =>
          apply emits_only_emit; solve [auto with emits]
      | |- emits_only _ (fire_and_forget (catch_undefined _)) =>
          apply emits_only_fire_and_forget_caught
      | |- emits_only _ (catch_undefined _) => apply emits_only_catch_undefined
      | |- emits_only _ (match ?x with _ => _ end) => destruct x
      end ].

Ltac emits := cbv zeta; repeat emits_step.

Section MethodsEmit.
Context (w : World) (P : Event → Prop).

Lemma emits_only_getWarehouseCredentialsForProject (p : string) :
  emits_only P (getWarehouseCredentialsForProject w p).
Proof. unfold getWarehouseCredentialsForProject. emits. Qed.
#[local] Hint Resolve emits_only_getWarehouseCredentialsForProject : emits.

Lemma emits_only_getAttributeValuesForOrgMember (org user : string) :
  emits_only P (getAttributeValuesForOrgMember w org user).
Proof. unfold getAttributeValuesForOrgMember. emits. Qed.
#[local] Hint Resolve emits_only_getAttributeValuesForOrgMember : emits.

Lemma emits_only_getWarehouseClient (p : string) :
  (∀ c, P (TunnelConnected c)) →
  emits_only P (getWarehouseClient w p).
Proof.
  intros HP. unfold getWarehouseClient, SshTunnel_connect. emits.
Qed.
#[local] Hint Resolve emits_only_getWarehouseClient : emits.

Lemma emits_only_SshTunnel_disconnect t :
  P TunnelDisconnect → emits_only P (SshTunnel_disconnect w t).
Proof. intros HP. unfold SshTunnel_disconnect. emits. Qed.
#[local] Hint Resolve emits_only_SshTunnel_disconnect : emits.

Lemma emits_only_read_results_cache (key : string) :
  P (S3GetResultsMetadata key) → P (S3GetResults key) →
  emits_only P (read_results_cache w key).
Proof. intros HP1 HP2. unfold read_results_cache. emits. Qed.
#[local] Hint Resolve emits_only_read_results_cache : emits.

Lemma emits_only_write_results_cache (key : string) wr tags :
  (∀ body, P (S3UploadResults key body tags)) →
  emits_only P (write_results_cache w key wr tags).
Proof. intros HP. unfold write_results_cache. emits. Qed.
#[local] Hint Resolve emits_only_write_results_cache : emits.

Lemma emits_only_runWarehouseQuery client (q : string) tags :
  P (WarehouseRunQuery client q tags) →
  emits_only P (runWarehouseQuery w client q tags).
Proof. intros HP. unfold runWarehouseQuery. emits. Qed.
#[local] Hint Resolve emits_only_runWarehouseQuery : emits.

Lemma emits_only_getResultsFromCacheOrWarehouse (p : string) client
    (q : string) mq tags :
  emits_only P (read_results_cache w (queryHash p q)) →
  (∀ wr, emits_only P (write_results_cache w (queryHash p q) wr tags)) →
  P (WarehouseRunQuery client q tags) →
  emits_only P (getResultsFromCacheOrWarehouse w p client q mq tags).
Proof.
  intros Hread Hwrite HP. unfold getResultsFromCacheOrWarehouse. emits.
Qed.
#[local] Hint Resolve emits_only_getResultsFromCacheOrWarehouse : emits.

Lemma emits_only_runMetricQuery (org p user : string) mq tags explore :
  (∀ c, P (TunnelConnected c)) → P TunnelDisconnect →
  (∀ client q,
     emits_only P (getResultsFromCacheOrWarehouse w p client q mq tags)) →
  emits_only P (runMetricQuery w org p user mq tags explore).
Proof.
  intros HP1 HP2 Hresults. unfold runMetricQuery.
  emits.
Qed.
#[local] Hint Resolve emits_only_runMetricQuery : emits.

Lemma emits_only_runQuery (p q : string) tags :
  (∀ c, P (TunnelConnected c)) → P TunnelDisconnect →
  (∀ client, P (WarehouseRunQuery client q (Some tags))) →
  emits_only P (runQuery w p q tags).
Proof.
  intros HP1 HP2 HP3. unfold runQuery.
  emits.
Qed.
#[local] Hint Resolve emits_only_runQuery : emits.

End MethodsEmit.

#[local] Hint Resolve emits_only_getWarehouseCredentialsForProject
  emits_only_getAttributeValuesForOrgMember emits_only_getWarehouseClient
  emits_only_SshTunnel_disconnect emits_only_read_results_cache
  emits_only_write_results_cache emits_only_runWarehouseQuery
  emits_only_getResultsFromCacheOrWarehouse emits_only_runMetricQuery
  emits_only_runQuery : emits.

(** ** The orchestrator, step by step *)

Lemma runMetricQuery_steps w (org p user : string) mq tags explore m :
  runMetricQuery w org p user mq tags explore m =
  match getWarehouseClient w p m with
  | (Rejected e, m1) => (Rejected e, m1)
  | (Fulfilled (client, tunnel), m1) =>
      match queryCompiler_compileMetricQuery explore mq client with
      | None => (Rejected (ExternalError FromCompiler), m1)
      | Some compiled =>
          match queryBuilder_buildQuery explore compiled client
                  (attribute_values w org user) with
          | None => (Rejected (ExternalError FromCompiler), m1)
          | Some (query, hasExampleMetric) =>
              match getResultsFromCacheOrWarehouse w p client query mq tags m1
              with
              | (Rejected e, m2) => (Rejected e, m2)
              | (Fulfilled results, m2) =>
                  match ssh_disconnect w with
                  | Rejected e => (Rejected e, record TunnelDisconnect m2)
                  | Fulfilled _ =>
                      (Fulfilled
                         (mkMetricQueryResults (qr_rows results)
                            (qr_cacheMetadata results) query hasExampleMetric
                            (type (credentials client))),
                       record TunnelDisconnect m2)
                  end
              end
          end
      end
  end.
Proof.
  unfold runMetricQuery, mbind, Async_bind.
  destruct (getWarehouseClient w p m) as [[[client tunnel]|e] m1]; [| done].
  simpl.
  destruct (queryCompiler_compileMetricQuery explore mq client); [| done].
  simpl.
  destruct (queryBuilder_buildQuery _ _ _ _) as [[query hem]|]; [| done].
  simpl.
  destruct (getResultsFromCacheOrWarehouse _ _ _ _ _ _ _) as [[results|e] m2];
    [| done].
  unfold SshTunnel_disconnect, mbind, Async_bind, emit, await. simpl.
  by destruct (ssh_disconnect w).
Qed.

(** A fulfilled [runMetricQuery] went through client resolution, the
    cache-or-warehouse step and the disconnect. *)
Lemma runMetricQuery_fulfilled w (org p user : string) mq tags explore m res :
  (runMetricQuery w org p user mq tags explore m).1 = Fulfilled res →
  ∃ client tunnel m1 results m2,
    getWarehouseClient w p m = (Fulfilled (client, tunnel), m1) ∧
    getResultsFromCacheOrWarehouse w p client (mq_query res) mq tags m1
      = (Fulfilled results, m2) ∧
    (runMetricQuery w org p user mq tags explore m).2
      = record TunnelDisconnect m2 ∧
    mq_rows res = qr_rows results ∧
    mq_cacheMetadata res = qr_cacheMetadata results.
Proof.
  rewrite runMetricQuery_steps.
  destruct (getWarehouseClient w p m) as [[[client tunnel]|e] m1]; [| done].
  destruct (queryCompiler_compileMetricQuery explore mq client); [| done].
  destruct (queryBuilder_buildQuery _ _ _ _) as [[query hem]|]; [| done].
  destruct (getResultsFromCacheOrWarehouse _ _ _ _ _ _ _)
    as [[results|e] m2] eqn:Hresults; [| done].
  destruct (ssh_disconnect w); [| done].
  simpl. intros [= <-]. simpl. by exists client, tunnel, m1, results, m2.
Qed.

(** After a miss of the lookup the step is the warehouse call followed by
    the write-back. *)
Lemma getResultsFromCacheOrWarehouse_miss w (p : string) client (q : string)
    mq tags m m' :
  read_results_cache w (queryHash p q) m = (Fulfilled None, m') →
  getResultsFromCacheOrWarehouse w p client q mq tags m =
  match warehouse_runQuery w client q tags with
  | Rejected e => (Rejected e, record (WarehouseRunQuery client q tags) m')
  | Fulfilled wr =>
      match write_results_cache w (queryHash p q) wr tags
              (record (WarehouseRunQuery client q tags) m') with
      | (Rejected e, m'') => (Rejected e, m'')
      | (Fulfilled _, m'') =>
          (Fulfilled (mkQueryResults (rows wr) (mkCacheMetadata false None)),
           m'')
      end
  end.
Proof.
  intros Hread.
  unfold getResultsFromCacheOrWarehouse, mbind, Async_bind. rewrite Hread.
  unfold runWarehouseQuery, mbind, Async_bind, emit, await. simpl.
  destruct (warehouse_runQuery w client q tags) as [wr|e]; [| done].
  by destruct (write_results_cache _ _ _ _ _) as [[[]|e] m''].
Qed.

(** ** Caching switched off *)

Lemma read_results_cache_disabled w (key : string) m :
  resultsCache_enabled w = false →
  read_results_cache w key m = (Fulfilled None, m).
Proof.
  unfold resultsCache_enabled, read_results_cache.
  destruct (resultsCache (lightdashConfig w)) as [config|]; [| done].
  by intros ->.
Qed.

Lemma write_results_cache_disabled w (key : string) wr tags m :
  resultsCache_enabled w = false →
  write_results_cache w key wr tags m = (Fulfilled tt, m).
Proof. unfold write_results_cache. by intros ->. Qed.

Lemma emits_only_unchanged {A} (P : Event → Prop) (c : Async A) :
  (∀ m, (c m).2 = m) → emits_only P c.
Proof.
  intros Hc m. rewrite Hc. split; [exists []; by rewrite app_nil_r | done].
Qed.

(** C8: with results caching disabled in the configuration, the lookup
    always misses and the store does nothing; an invocation of
    [runMetricQuery] makes no call to the object store, and whenever it
    returns, the result carries [cacheHit: false] and the rows the warehouse
    gave for the compiled query. *)
Theorem caching_disabled_bypasses_result_cache w (org p user : string) mq tags
    explore m :
  resultsCache_enabled w = false →
  (∀ key m', read_results_cache w key m' = (Fulfilled None, m')) ∧
  (∀ key wr m', write_results_cache w key wr tags m' = (Fulfilled tt, m')) ∧
  ∃ evs,
    trace (runMetricQuery w org p user mq tags explore m).2 = trace m ++ evs ∧
    Forall (λ e, is_cache_read e = false ∧ is_cache_write e = false) evs ∧
    ∀ res,
      (runMetricQuery w org p user mq tags explore m).1 = Fulfilled res →
      mq_cacheMetadata res = mkCacheMetadata false None ∧
      ∃ client wr,
        WarehouseRunQuery client (mq_query res) tags ∈ evs ∧
        warehouse_runQuery w client (mq_query res) tags = Fulfilled wr ∧
        mq_rows res = rows wr.
Proof.
  intros Hoff.
  split; [intros; by apply read_results_cache_disabled |].
  split; [intros; by apply write_results_cache_disabled |].
  set (P := λ e, is_cache_read e = false ∧ is_cache_write e = false).
  assert (∀ client q,
            emits_only P (getResultsFromCacheOrWarehouse w p client q mq tags))
    as Hstep.
  { intros client q. apply emits_only_getResultsFromCacheOrWarehouse.
    - apply emits_only_unchanged. intros m0.
      by rewrite read_results_cache_disabled.
    - intros wr. apply emits_only_unchanged. intros m0.
      by rewrite write_results_cache_disabled.
    - done. }
  destruct (emits_only_runMetricQuery w P org p user mq tags explore
              (λ _, conj eq_refl eq_refl) (conj eq_refl eq_refl) Hstep m)
    as [(evs & Htrace & Hevs) _].
  exists evs. split; [done |]. split; [done |].
  intros res Hres.
  destruct (runMetricQuery_fulfilled _ _ _ _ _ _ _ _ _ Hres)
    as (client & tunnel & m1 & results & m2 & Hclient & Hstep' & Hend
        & Hrows & Hmeta).
  rewrite (getResultsFromCacheOrWarehouse_miss _ _ _ _ _ _ _ _
             (read_results_cache_disabled _ _ _ Hoff)) in Hstep'.
  destruct (warehouse_runQuery w client (mq_query res) tags) as [wr|e]
    eqn:Hwr; [| done].
  rewrite write_results_cache_disabled in Hstep' by done.
  injection Hstep' as <- <-.
  split; [by rewrite Hmeta |].
  exists client, wr. split; [| by rewrite Hrows].
  destruct (emits_only_getWarehouseClient w (λ _, True) p (λ _, I) m)
    as [(evs1 & Htrace1 & _) _].
  rewrite Hclient in Htrace1. simpl in Htrace1.
  rewrite Hend in Htrace. simpl in Htrace.
  rewrite Htrace1, <- !app_assoc in Htrace.
  apply app_inv_head in Htrace as <-.
  apply elem_of_app. right. apply list_elem_of_here.
Qed.

(** With caching off the call does return whenever its collaborators do. *)
Lemma caching_disabled_returns_warehouse_rows w (org p user : string) mq tags
    explore m client tunnel m1 compiled query hasExampleMetric wr :
  resultsCache_enabled w = false →
  getWarehouseClient w p m = (Fulfilled (client, tunnel), m1) →
  queryCompiler_compileMetricQuery explore mq client = Some compiled →
  queryBuilder_buildQuery explore compiled client (attribute_values w org user)
    = Some (query, hasExampleMetric) →
  warehouse_runQuery w client query tags = Fulfilled wr →
  ssh_disconnect w = Fulfilled tt →
  runMetricQuery w org p user mq tags explore m =
  (Fulfilled
     (mkMetricQueryResults (rows wr) (mkCacheMetadata false None) query
        hasExampleMetric (type (credentials client))),
   record TunnelDisconnect (record (WarehouseRunQuery client query tags) m1)).
Proof.
  intros Hoff Hclient Hcompiled Hbuilt Hwr Hdisconnect.
  rewrite runMetricQuery_steps, Hclient, Hcompiled, Hbuilt.
  rewrite (getResultsFromCacheOrWarehouse_miss _ _ _ _ _ _ _ _
             (read_results_cache_disabled _ _ _ Hoff)), Hwr.
  rewrite write_results_cache_disabled by done.
  by rewrite Hdisconnect.
Qed.

(** ** Staleness *)

(** Once the client is resolved and the query is built, what is left of
    [runMetricQuery] is the cache-or-warehouse step and the disconnect. *)
Lemma runMetricQuery_after_client w (org p user : string) mq tags explore m
    client tunnel m1 compiled query hasExampleMetric :
  getWarehouseClient w p m = (Fulfilled (client, tunnel), m1) →
  queryCompiler_compileMetricQuery explore mq client = Some compiled →
  queryBuilder_buildQuery explore compiled client (attribute_values w org user)
    = Some (query, hasExampleMetric) →
  let step := getResultsFromCacheOrWarehouse w p client query mq tags m1 in
  let run := runMetricQuery w org p user mq tags explore m in
  (run.2 = step.2 ∨ run.2 = record TunnelDisconnect step.2) ∧
  ∀ res, run.1 = Fulfilled res →
    ∃ results, step.1 = Fulfilled results ∧
      mq_rows res = qr_rows results ∧
      mq_cacheMetadata res = qr_cacheMetadata results.
Proof.
  intros Hclient Hcompiled Hbuilt. cbv zeta.
  rewrite runMetricQuery_steps, Hclient, Hcompiled, Hbuilt.
  destruct (getResultsFromCacheOrWarehouse _ _ _ _ _ _ _) as [[results|e] m2];
    simpl; [| by split; [left |]].
  destruct (ssh_disconnect w); simpl; (split; [by right |]); [| done].
  intros res [= <-]. by exists results.
Qed.

Lemma read_results_cache_stale w (key : string) m config head lastModified :
  resultsCache (lightdashConfig w) = Some config →
  s3_getResultsMetadata w key = Fulfilled (Some head) →
  LastModified head = Some lastModified →
  (cacheStateTimeSeconds config * 1000 ≤ now w - lastModified)%Z →
  read_results_cache w key m =
  (Fulfilled None,
   if enabled config then record (S3GetResultsMetadata key) m else m).
Proof.
  intros Hconfig Hhead Hlast Hage. unfold read_results_cache.
  rewrite Hconfig. destruct (enabled config); [| done].
  unfold mbind, Async_bind, catch_undefined, emit, await. simpl.
  rewrite Hhead. simpl. rewrite Hlast. simpl.
  by rewrite bool_decide_eq_false_2 by lia.
Qed.

(** What the step does after a lookup that missed: the warehouse call,
    then at most writes to the cache. *)
Lemma getResultsFromCacheOrWarehouse_miss_trace w (p : string) client
    (q : string) mq tags m m' :
  read_results_cache w (queryHash p q) m = (Fulfilled None, m') →
  let step := getResultsFromCacheOrWarehouse w p client q mq tags m in
  (∃ writes,
     trace step.2 = trace m' ++ WarehouseRunQuery client q tags :: writes ∧
     Forall (λ e, is_cache_write e = true) writes) ∧
  ∀ results, step.1 = Fulfilled results →
    ∃ wr, warehouse_runQuery w client q tags = Fulfilled wr ∧
      results = mkQueryResults (rows wr) (mkCacheMetadata false None).
Proof.
  intros Hread. cbv zeta.
  rewrite (getResultsFromCacheOrWarehouse_miss _ _ _ _ _ _ _ _ Hread).
  destruct (warehouse_runQuery w client q tags) as [wr|e]; simpl;
    [| split; [by exists [] | done]].
  destruct (emits_only_write_results_cache w
              (λ e, is_cache_write e = true) (queryHash p q) wr tags
              (λ _, eq_refl) (record (WarehouseRunQuery client q tags) m'))
    as [(writes & Htrace & Hwrites) _].
  destruct (write_results_cache _ _ _ _ _) as [[[]|e] m'']; simpl in *.
  - split; [| intros results [= <-]; by exists wr].
    exists writes. by rewrite Htrace, <- app_assoc.
  - split; [| done]. exists writes. by rewrite Htrace, <- app_assoc.
Qed.

(** C4: a cache entry whose age has reached the configured threshold
    ([now - lastModified >= cacheStateTimeSeconds * 1000], equality
    included) is never served: the lookup misses without fetching the
    payload, [runMetricQuery] runs the query on the warehouse, and whenever
    it returns, the rows are the warehouse's and [cacheHit] is false. *)
Theorem stale_entry_is_never_served w (org p user : string) mq tags explore m
    client tunnel m1 compiled query hasExampleMetric config head lastModified :
  getWarehouseClient w p m = (Fulfilled (client, tunnel), m1) →
  queryCompiler_compileMetricQuery explore mq client = Some compiled →
  queryBuilder_buildQuery explore compiled client (attribute_values w org user)
    = Some (query, hasExampleMetric) →
  resultsCache (lightdashConfig w) = Some config →
  s3_getResultsMetadata w (queryHash p query) = Fulfilled (Some head) →
  LastModified head = Some lastModified →
  (cacheStateTimeSeconds config * 1000 ≤ now w - lastModified)%Z →
  let run := runMetricQuery w org p user mq tags explore m in
  (∀ m0, (read_results_cache w (queryHash p query) m0).1 = Fulfilled None) ∧
  ∃ evs,
    trace run.2 = trace m1 ++ evs ∧
    Forall (λ e, is_payload_read e = false) evs ∧
    WarehouseRunQuery client query tags ∈ evs ∧
    ∀ res, run.1 = Fulfilled res →
      cacheHit (mq_cacheMetadata res) = false ∧
      ∃ wr, warehouse_runQuery w client query tags = Fulfilled wr ∧
        mq_rows res = rows wr.
Proof.
  intros Hclient Hcompiled Hbuilt Hconfig Hhead Hlast Hage. cbv zeta.
  split.
  { intros m0.
    by rewrite (read_results_cache_stale _ _ _ _ _ _ Hconfig Hhead Hlast Hage). }
  pose proof (read_results_cache_stale w _ m1 _ _ _ Hconfig Hhead Hlast Hage)
    as Hread.
  destruct (getResultsFromCacheOrWarehouse_miss_trace w p client query mq tags
              _ _ Hread) as [(writes & Htrace & Hwrites) Hresults].
  destruct (runMetricQuery_after_client _ _ _ _ mq tags explore _ _ _ _ _ _ _
              Hclient Hcompiled Hbuilt) as [Hend Hfulfilled].
  set (lookup := if enabled config
                 then [S3GetResultsMetadata (queryHash p query)] else []).
  assert (Forall (λ e, is_payload_read e = false) lookup) as Hlookup.
  { subst lookup. destruct (enabled config); by repeat constructor. }
  assert (Forall (λ e, is_payload_read e = false) writes) as Hwrites'.
  { eapply Forall_impl; [exact Hwrites |]. by intros []. }
  assert (trace (getResultsFromCacheOrWarehouse w p client query mq tags m1).2
          = trace m1
            ++ lookup ++ WarehouseRunQuery client query tags :: writes)
    as Hstep.
  { rewrite Htrace. subst lookup. destruct (enabled config); simpl.
    - by rewrite <- app_assoc.
    - done. }
  assert (∀ res,
            (runMetricQuery w org p user mq tags explore m).1 = Fulfilled res →
            cacheHit (mq_cacheMetadata res) = false ∧
            ∃ wr, warehouse_runQuery w client query tags = Fulfilled wr ∧
                  mq_rows res = rows wr) as Hout.
  { intros res Hres.
    destruct (Hfulfilled res Hres) as (results & Hok & Hrows & Hmeta).
    destruct (Hresults results Hok) as (wr & Hwr & ->).
    split; [by rewrite Hmeta |]. by exists wr. }
  destruct Hend as [-> | ->].
  - exists (lookup ++ WarehouseRunQuery client query tags :: writes).
    split; [done |]. split; [| split; [| done]].
    + apply Forall_app. split; [done |]. by constructor.
    + apply elem_of_app. right. apply list_elem_of_here.
  - exists (lookup ++ WarehouseRunQuery client query tags :: writes
              ++ [TunnelDisconnect]).
    split; [| split; [| split; [| done]]].
    + simpl. rewrite Hstep, <- !app_assoc. simpl. done.
    + apply Forall_app. split; [done |]. constructor; [done |].
      apply Forall_app. split; [done |]. by repeat constructor.
    + apply elem_of_app. right. apply list_elem_of_here.
Qed.

(** ** The write-back *)

Lemma write_results_cache_ignores_outcome w answer (key : string) wr tags m :
  write_results_cache (with_uploadResults answer w) key wr tags m
  = write_results_cache w key wr tags m.
Proof.
  unfold write_results_cache.
  change (resultsCache_enabled (with_uploadResults answer w))
    with (resultsCache_enabled w).
  destruct (resultsCache_enabled w); [| done].
  destruct (JSON_stringify wr) as [buffer|]; [| done].
  unfold attempt, mbind, Async_bind, mret, Async_ret, fire_and_forget,
    catch_undefined, emit, await. simpl.
  by destruct (answer key buffer tags), (s3_uploadResults w key buffer tags).
Qed.

Lemma getResultsFromCacheOrWarehouse_ignores_outcome w answer (p : string)
    client (q : string) mq tags m :
  getResultsFromCacheOrWarehouse (with_uploadResults answer w) p client q mq
    tags m
  = getResultsFromCacheOrWarehouse w p client q mq tags m.
Proof.
  unfold getResultsFromCacheOrWarehouse, mbind, Async_bind.
  change (read_results_cache (with_uploadResults answer w))
    with (read_results_cache w).
  destruct (read_results_cache w (queryHash p q) m) as [[[results|]|e] m'];
    try done.
  change (runWarehouseQuery (with_uploadResults answer w))
    with (runWarehouseQuery w).
  destruct (runWarehouseQuery w client q tags m') as [[wr|e] m'']; [| done].
  by rewrite write_results_cache_ignores_outcome.
Qed.

Lemma write_results_cache_issued w (key : string) wr tags buffer m :
  resultsCache_enabled w = true →
  JSON_stringify wr = Some buffer →
  write_results_cache w key wr tags m
  = (Fulfilled tt, record (S3UploadResults key buffer tags) m).
Proof.
  intros Hon Hbuffer. unfold write_results_cache. rewrite Hon, Hbuffer.
  unfold attempt, mbind, Async_bind, mret, Async_ret, fire_and_forget,
    catch_undefined, emit, await. simpl.
  by destruct (s3_uploadResults w key buffer tags).
Qed.

(** The upload alone is fire and forget: once the results are serialized the
    upload is issued and the method goes on without its outcome; whatever
    the object store answers to the upload, [runMetricQuery] returns the
    same rows and cache metadata in the same state, and no rejection is left
    unhandled. The serialization that precedes the upload is not covered. *)
Theorem cache_write_is_fire_and_forget w (org p user : string) mq tags explore
    m answer (key : string) wr buffer m' :
  resultsCache_enabled w = true →
  JSON_stringify wr = Some buffer →
  write_results_cache w key wr tags m'
    = (Fulfilled tt, record (S3UploadResults key buffer tags) m') ∧
  runMetricQuery (with_uploadResults answer w) org p user mq tags explore m
    = runMetricQuery w org p user mq tags explore m ∧
  unhandledRejections (runMetricQuery w org p user mq tags explore m).2
    = unhandledRejections m.
Proof.
  intros Hon Hbuffer. split; [by apply write_results_cache_issued |]. split.
  - rewrite !runMetricQuery_steps.
    change (getWarehouseClient (with_uploadResults answer w))
      with (getWarehouseClient w).
    destruct (getWarehouseClient w p m) as [[[client tunnel]|e] m1]; [| done].
    destruct (queryCompiler_compileMetricQuery explore mq client); [| done].
    change (attribute_values (with_uploadResults answer w))
      with (attribute_values w).
    destruct (queryBuilder_buildQuery _ _ _ _) as [[query hem]|]; [| done].
    by rewrite getResultsFromCacheOrWarehouse_ignores_outcome.
  - assert (emits_only (λ _, True)
              (runMetricQuery w org p user mq tags explore)) as Hrun
      by emits.
    apply Hrun.
Qed.

(** ** The cache key *)

(** C10: two distinct (project, query text) pairs derive the same cache
    key. The hashed text joins the two parts with a dot, so project [a.b]
    with query [c] and project [a] with query [b.c] hash the same text. *)
Theorem queryHash_collides_across_projects :
  ∃ p1 q1 p2 q2 : string,
    (p1, q1) ≠ (p2, q2) ∧ queryHash p1 q1 = queryHash p2 q2.
Proof.
  exists "a.b", "c", "a", "b.c". split; [discriminate | reflexivity].
Qed.

(** Distinct query texts give distinct hashed texts for one project. *)
Lemma hashed_text_injective (p q1 q2 : string) :
  p +:+ "." +:+ q1 = p +:+ "." +:+ q2 → q1 = q2.
Proof.
  intros Heq. apply (inj (String.append p)) in Heq.
  by apply (inj (String.append ".")) in Heq.
Qed.

(** C9: the cache key is a function of the project identifier and the
    query text alone: every object-store call of the cache-or-warehouse
    step, in any world and state, carries [queryHash p q]. Two different
    query texts of one project are hashed from different texts, so their
    keys differ unless SHA-256 itself collides. *)
Theorem queryHash_deterministic_and_injective_up_to_sha256 w (p q1 q2 : string)
    client mq tags :
  q1 ≠ q2 →
  emits_only (λ e, ∀ k, cache_key_of e = Some k → k = queryHash p q1)
    (getResultsFromCacheOrWarehouse w p client q1 mq tags) ∧
  p +:+ "." +:+ q1 ≠ p +:+ "." +:+ q2 ∧
  (queryHash p q1 ≠ queryHash p q2 ∨
   ∃ x y : string, x ≠ y ∧ sha256_hex x = sha256_hex y).
Proof.
  intros Hne.
  assert (p +:+ "." +:+ q1 ≠ p +:+ "." +:+ q2) as Htext.
  { intros Heq. by apply Hne, (hashed_text_injective p). }
  split; [| split; [done |]].
  - apply emits_only_getResultsFromCacheOrWarehouse.
    + apply emits_only_read_results_cache; by intros k [= <-].
    + intros wr. apply emits_only_write_results_cache. by intros body k [= <-].
    + by intros k.
  - destruct (decide (queryHash p q1 = queryHash p q2)) as [Heq | Hkeys];
      [right | by left].
    by exists (p +:+ "." +:+ q1), (p +:+ "." +:+ q2).
Qed.

(** ** Credential resolution *)

Lemma getWarehouseCredentialsForProject_pure w (p : string) m :
  (getWarehouseCredentialsForProject w p m).2 = m.
Proof.
  unfold getWarehouseCredentialsForProject.
  destruct (select_warehouse_credentials w p) as [|row rest]; [done |].
  by destruct (decrypt (encrypted_credentials row) ≫= JSON_parse_credentials).
Qed.




(** ** The client registry *)

Lemma getWarehouseClient_steps w (p : string) m :
  getWarehouseClient w p m =
  match (getWarehouseCredentialsForProject w p m).1 with
  | Rejected e => (Rejected e, m)
  | Fulfilled creds =>
      match ssh_connect w creds with
      | Rejected e => (Rejected e, m)
      | Fulfilled effective =>
          let fresh := mkClient (allocated m) effective in
          let constructed :=
            (Fulfilled (fresh, mkSshTunnel creds),
             mkModel (<[p := fresh]> (cachedWarehouseClients m))
               (S (allocated m)) (trace m ++ [TunnelConnected effective])
               (unhandledRejections m)) in
          match cachedWarehouseClients m !! p with
          | Some existing =>
              if deepEqual (credentials existing) effective
              then (Fulfilled (existing, mkSshTunnel creds),
                    record (TunnelConnected effective) m)
              else constructed
          | None => constructed
          end
      end
  end.
Proof.
  unfold getWarehouseClient, mbind, Async_bind.
  pose proof (getWarehouseCredentialsForProject_pure w p m) as Hpure.
  destruct (getWarehouseCredentialsForProject w p m) as [[creds|e] m0];
    simpl in Hpure; subst m0; [| done].
  unfold SshTunnel_connect, mbind, Async_bind, await, emit. simpl.
  destruct (ssh_connect w creds) as [effective|e]; [| done]. simpl.
  destruct (cachedWarehouseClients m !! p) as [existing|]; [| done].
  by destruct (deepEqual (credentials existing) effective).
Qed.

Lemma getWarehouseClient_preserves_registry_wf w (p : string) m :
  registry_wf m → registry_wf (getWarehouseClient w p m).2.
Proof.
  intros Hwf. rewrite getWarehouseClient_steps.
  destruct ((getWarehouseCredentialsForProject w p m).1) as [creds|e];
    [| done].
  destruct (ssh_connect w creds) as [effective|e]; [| done].
  assert (registry_wf
            (mkModel
               (<[p := mkClient (allocated m) effective]>
                  (cachedWarehouseClients m))
               (S (allocated m)) (trace m ++ [TunnelConnected effective])
               (unhandledRejections m))) as Hnew.
  { intros k c. simpl. rewrite lookup_insert. case_decide.
    - intros [= <-]. simpl. lia.
    - intros Hc. apply Hwf in Hc. lia. }
  cbv zeta.
  destruct (cachedWarehouseClients m !! p) as [existing|]; [| done].
  by destruct (deepEqual (credentials existing) effective).
Qed.

(** What decides the reuse: once the credentials are resolved and the
    tunnel has answered with the effective credentials, the client returned
    is the instance held by the registry for the project if and only if
    such an entry exists and its credentials equal the effective ones; in
    that case the registry is left as it was. Otherwise a client is
    constructed from the effective credentials, differs from every client
    of the registry, and replaces the entry of the project. Nothing but the
    comparison of credentials decides: a tunnelled session gets a fresh
    client exactly when its effective credentials differ from the stored
    ones. *)
Theorem getWarehouseClient_reuses_client_iff_credentials_equal w (p : string)
    m creds effective :
  (getWarehouseCredentialsForProject w p m).1 = Fulfilled creds →
  ssh_connect w creds = Fulfilled effective →
  registry_wf m →
  let hit := ∃ existing, cachedWarehouseClients m !! p = Some existing ∧
                         credentials existing = effective in
  ∃ client m',
    getWarehouseClient w p m = (Fulfilled (client, mkSshTunnel creds), m') ∧
    credentials client = effective ∧
    trace m' = trace m ++ [TunnelConnected effective] ∧
    (cachedWarehouseClients m !! p = Some client ↔ hit) ∧
    (hit → cachedWarehouseClients m' = cachedWarehouseClients m ∧
           allocated m' = allocated m) ∧
    (¬ hit →
       client = mkClient (allocated m) effective ∧
       (∀ k c, cachedWarehouseClients m !! k = Some c → c ≠ client) ∧
       cachedWarehouseClients m' = <[p := client]> (cachedWarehouseClients m) ∧
       allocated m' = S (allocated m)).
Proof.
  intros Hcreds Hconnect Hwf. cbv zeta.
  rewrite getWarehouseClient_steps, Hcreds, Hconnect. cbv zeta.
  assert (∀ k c, cachedWarehouseClients m !! k = Some c →
                 c ≠ mkClient (allocated m) effective) as Hfresh.
  { intros k c Hc ->. apply Hwf in Hc. simpl in Hc. lia. }
  destruct (cachedWarehouseClients m !! p) as [existing|] eqn:Hentry.
  - unfold deepEqual. case_bool_decide as Heq.
    + eexists _, _. split; [done |]. simpl.
      split_and!; [done | done | | done |].
      * split; [eauto | done].
      * intros Hmiss. exfalso. eauto.
    + eexists _, _. split; [done |]. simpl.
      split_and!; [done | done | | |].
      * split; [intros [= ->]; by simpl in Heq | break_hyps].
      * break_hyps.
      * done.
  - eexists _, _. split; [done |]. simpl.
    split_and!; [done | done | | |].
    + split; [done | break_hyps].
    + break_hyps.
    + done.
Qed.

(** ** Attribute values *)

Lemma lookup_fold_left_insert {A V} (key : A → string) (val : A → V)
    (l : list A) (m0 : gmap string V) (n : string) :
  fold_left (λ acc row, <[key row := val row]> acc) l m0 !! n =
  match last_named n (map (λ row, (key row, val row)) l) with
  | Some v => Some v
  | None => m0 !! n
  end.
Proof.
  revert m0. induction l as [|a l IH]; intros m0; simpl; [done |].
  rewrite IH.
  destruct (last_named n (map (λ row, (key row, val row)) l)); [done |].
  rewrite lookup_insert. case_decide; by case_bool_decide.
Qed.

Lemma last_named_map_value {V W} (g : string → V → W) (n : string)
    (l : list (string * V)) :
  last_named n (map (λ row, (row.1, g row.1 row.2)) l)
  = g n <$> last_named n l.
Proof.
  induction l as [|[k v] l IH]; simpl; [done |].
  rewrite IH. destruct (last_named n l); simpl; [done |].
  case_bool_decide; by subst.
Qed.

Lemma userValuesMap_lookup (userValues : list (option string * string))
    (n : string) :
  userValuesMap userValues !! n
  = last_named n (map (λ r, (property_key r.1, r.2)) userValues).
Proof.
  unfold userValuesMap.
  rewrite (lookup_fold_left_insert (λ r, property_key r.1) (λ r, r.2)).
  by destruct (last_named _ _).
Qed.

Lemma combine_values_lookup (uvm : gmap string string)
    (attributeValues : list (string * option string)) (n : string) :
  combine_values uvm attributeValues !! n
  = (λ d, value_or_default uvm (n, d)) <$> last_named n attributeValues.
Proof.
  unfold combine_values.
  rewrite (lookup_fold_left_insert (λ row, row.1)
             (λ row, value_or_default uvm row)).
  rewrite <- (last_named_map_value (λ k d, value_or_default uvm (k, d))).
  assert (map (λ row : string * option string,
                 (row.1, value_or_default uvm row)) attributeValues
          = map (λ row, (row.1, value_or_default uvm (row.1, row.2)))
              attributeValues) as ->.
  { apply map_ext. by intros []. }
  by destruct (last_named _ _).
Qed.

(** C5, as the code has it: the resolution never fails and leaves the
    model untouched. The map it returns has an entry for a name exactly when
    a row of the organization's attributes carries that name; the entry is
    the user's value when the user has a non-empty value for the name, and
    the organization default otherwise (names of [Object.prototype] members
    aside). *)
Theorem attribute_values_prefer_non_empty_user_value w (org user : string) m
    (n : string) :
  n ∉ Object_prototype →
  let defaults := select_attribute_defaults w org in
  let overrides :=
    map (λ r, (property_key r.1, r.2)) (select_user_values w org user) in
  ∃ result,
    getAttributeValuesForOrgMember w org user m = (Fulfilled result, m) ∧
    result !! n =
      match last_named n defaults with
      | None => None
      | Some default =>
          Some (match last_named n overrides with
                | Some v =>
                    if bool_decide (v = EmptyString) then nullable default
                    else AttrString v
                | None => nullable default
                end)
      end.
Proof.
  intros Hn. cbv zeta. exists (attribute_values w org user).
  split; [done |]. unfold attribute_values.
  rewrite combine_values_lookup.
  destruct (last_named n (select_attribute_defaults w org)) as [d|];
    simpl; [| done].
  f_equal. unfold value_or_default, property. simpl.
  rewrite userValuesMap_lookup.
  destruct (last_named n _) as [v|]; simpl.
  - unfold truthy_string. by case_bool_decide.
  - by rewrite bool_decide_eq_false_2.
Qed.

(** ** The tunnel *)

Lemma count_events_app (f : Event → bool) (l1 l2 : list Event) :
  count_events f (l1 ++ l2) = count_events f l1 + count_events f l2.
Proof. unfold count_events. by rewrite List.filter_app, length_app. Qed.

Lemma count_events_none (f : Event → bool) (l : list Event) :
  Forall (λ e, f e = false) l → count_events f l = 0.
Proof.
  unfold count_events. induction 1 as [|e l He _ IH]; simpl; [done |].
  by rewrite He.
Qed.

Lemma getWarehouseClient_fulfilled_trace w (p : string) m r m1 :
  getWarehouseClient w p m = (Fulfilled r, m1) →
  ∃ effective, trace m1 = trace m ++ [TunnelConnected effective].
Proof.
  rewrite getWarehouseClient_steps.
  destruct ((getWarehouseCredentialsForProject w p m).1) as [creds|e];
    [| done].
  destruct (ssh_connect w creds) as [effective|e]; [| done]. cbv zeta.
  intros Hrun. exists effective.
  destruct (cachedWarehouseClients m !! p) as [existing|];
    [destruct (deepEqual (credentials existing) effective) |];
    by injection Hrun as _ <-.
Qed.

(** The cache-or-warehouse step never touches the tunnel. *)
Lemma getResultsFromCacheOrWarehouse_leaves_tunnel w (p : string) client
    (q : string) mq tags :
  emits_only (λ e, is_connect e = false ∧ is_disconnect e = false)
    (getResultsFromCacheOrWarehouse w p client q mq tags).
Proof.
  apply emits_only_getResultsFromCacheOrWarehouse; [| intros wr |]; by emits.
Qed.

(** The success path of [runMetricQuery]: one connect, one disconnect. *)
Lemma runMetricQuery_fulfilled_closes_tunnel_once w (org p user : string) mq
    tags explore m res :
  (runMetricQuery w org p user mq tags explore m).1 = Fulfilled res →
  ∃ evs,
    trace (runMetricQuery w org p user mq tags explore m).2 = trace m ++ evs ∧
    count_events is_connect evs = 1 ∧
    count_events is_disconnect evs = 1.
Proof.
  intros Hres.
  destruct (runMetricQuery_fulfilled _ _ _ _ _ _ _ _ _ Hres)
    as (client & tunnel & m1 & results & m2 & Hclient & Hstep & Hend & _).
  destruct (getWarehouseClient_fulfilled_trace _ _ _ _ _ Hclient)
    as (effective & Htrace1).
  destruct (getResultsFromCacheOrWarehouse_leaves_tunnel w p client
              (mq_query res) mq tags m1) as [(evs & Htrace2 & Hevs) _].
  rewrite Hstep in Htrace2. simpl in Htrace2.
  exists ([TunnelConnected effective] ++ evs ++ [TunnelDisconnect]).
  split.
  - rewrite Hend. simpl. rewrite Htrace2, Htrace1, <- !app_assoc. done.
  - rewrite !count_events_app.
    rewrite (count_events_none is_connect evs),
      (count_events_none is_disconnect evs); [done | |].
    + eapply Forall_impl; [exact Hevs |]. by intros e [].
    + eapply Forall_impl; [exact Hevs |]. by intros e [].
Qed.

(** The failure path: when the cache-or-warehouse step throws, the method
    throws the same error from the state the step left, with the tunnel
    still open. *)
Lemma runMetricQuery_rejected_step_leaves_tunnel_open w (org p user : string)
    mq tags explore m client tunnel m1 compiled query hasExampleMetric e m2 :
  getWarehouseClient w p m = (Fulfilled (client, tunnel), m1) →
  queryCompiler_compileMetricQuery explore mq client = Some compiled →
  queryBuilder_buildQuery explore compiled client (attribute_values w org user)
    = Some (query, hasExampleMetric) →
  getResultsFromCacheOrWarehouse w p client query mq tags m1
    = (Rejected e, m2) →
  runMetricQuery w org p user mq tags explore m = (Rejected e, m2) ∧
  ∃ evs, trace m2 = trace m1 ++ evs ∧ count_events is_disconnect evs = 0.
Proof.
  intros Hclient Hcompiled Hbuilt Hstep.
  rewrite runMetricQuery_steps, Hclient, Hcompiled, Hbuilt, Hstep.
  split; [done |].
  destruct (getResultsFromCacheOrWarehouse_leaves_tunnel w p client query mq
              tags m1) as [(evs & Htrace & Hevs) _].
  rewrite Hstep in Htrace. exists evs. split; [done |].
  apply count_events_none. eapply Forall_impl; [exact Hevs |]. by intros e' [].
Qed.

Lemma runQuery_rejected_leaves_tunnel_open w (p q : string) tags m client
    tunnel m1 e :
  getWarehouseClient w p m = (Fulfilled (client, tunnel), m1) →
  warehouse_runQuery w client q (Some tags) = Rejected e →
  runQuery w p q tags m
  = (Rejected e, record (WarehouseRunQuery client q (Some tags)) m1).
Proof.
  intros Hclient Hrun. unfold runQuery, mbind, Async_bind. rewrite Hclient.
  unfold emit, await. simpl. by rewrite Hrun.
Qed.

(** [compileMetricQuery] connects the tunnel as well and has no disconnect
    on any path. *)
Lemma compileMetricQuery_never_disconnects w (org p user : string) mq explore :
  emits_only (λ e, is_disconnect e = false)
    (compileMetricQuery w org p user mq explore).
Proof. unfold compileMetricQuery. emits. Qed.

(** ** Failures of the cache reads *)

(** A failed metadata request is taken for a miss. *)
Lemma read_results_cache_metadata_failure w (key : string) m e :
  resultsCache_enabled w = true →
  s3_getResultsMetadata w key = Rejected e →
  read_results_cache w key m
  = (Fulfilled None, record (S3GetResultsMetadata key) m).
Proof.
  unfold resultsCache_enabled, read_results_cache.
  destruct (resultsCache (lightdashConfig w)) as [config|]; [| done].
  intros -> Hmeta.
  unfold mbind, Async_bind, catch_undefined, emit, await. simpl.
  by rewrite Hmeta.
Qed.

(** A failed payload request of a fresh entry is thrown to the caller. *)
Lemma read_results_cache_payload_failure w (key : string) m config head
    lastModified e :
  resultsCache (lightdashConfig w) = Some config →
  enabled config = true →
  s3_getResultsMetadata w key = Fulfilled (Some head) →
  LastModified head = Some lastModified →
  (now w - lastModified < cacheStateTimeSeconds config * 1000)%Z →
  s3_getResults w key = Rejected e →
  read_results_cache w key m
  = (Rejected e,
     record (S3GetResults key) (record (S3GetResultsMetadata key) m)).
Proof.
  intros Hconfig Hon Hhead Hlast Hage Hpayload. unfold read_results_cache.
  rewrite Hconfig, Hon.
  unfold mbind, Async_bind, catch_undefined, emit, await. simpl.
  rewrite Hhead. simpl. rewrite Hlast. simpl.
  rewrite bool_decide_eq_true_2 by done. by rewrite Hpayload.
Qed.

(** * Further properties of the cache-or-warehouse step *)

(** The lookup, statement by statement. *)
Lemma read_results_cache_steps w (key : string) m :
  read_results_cache w key m =
  match resultsCache (lightdashConfig w) with
  | None => (Fulfilled None, m)
  | Some config =>
      if enabled config then
        let m1 := record (S3GetResultsMetadata key) m in
        match lastModified_of (s3_getResultsMetadata w key) with
        | None => (Fulfilled None, m1)
        | Some lastModified =>
            if bool_decide
                 (now w - lastModified < cacheStateTimeSeconds config * 1000)%Z
            then
              let m2 := record (S3GetResults key) m1 in
              match s3_getResults w key with
              | Rejected e => (Rejected e, m2)
              | Fulfilled entry =>
                  match Body entry with
                  | None => (Fulfilled None, m2)
                  | Some (Rejected e) => (Rejected e, m2)
                  | Some (Fulfilled text) =>
                      if truthy_string text then
                        match JSON_parse_rows text with
                        | Some parsed =>
                            (Fulfilled
                               (Some (mkQueryResults parsed
                                        (mkCacheMetadata true
                                           (Some lastModified)))),
                             m2)
                        | None => (Fulfilled None, m2)
                        end
                      else (Fulfilled None, m2)
                  end
              end
            else (Fulfilled None, m1)
        end
      else (Fulfilled None, m)
  end.
Proof.
  unfold read_results_cache.
  destruct (resultsCache (lightdashConfig w)) as [config|]; [| done].
  destruct (enabled config); [| done].
  unfold mbind, Async_bind, catch_undefined, emit, await, lastModified_of.
  simpl.
  destruct (s3_getResultsMetadata w key) as [[head|]|e]; simpl; try done.
  destruct (LastModified head) as [lastModified|]; simpl; [| done].
  case_bool_decide; [| done]. simpl.
  destruct (s3_getResults w key) as [entry|e]; simpl; [| done].
  destruct (Body entry) as [[text|e]|]; simpl; try done.
  destruct (truthy_string text); [| done].
  by destruct (JSON_parse_rows text).
Qed.

(** The write-back, statement by statement: whatever the store answers to
    the upload. *)
Lemma write_results_cache_steps w (key : string) wr tags m :
  write_results_cache w key wr tags m =
  if resultsCache_enabled w then
    match JSON_stringify wr with
    | Some buffer =>
        (Fulfilled tt, record (S3UploadResults key buffer tags) m)
    | None => (Rejected (ExternalError FromJson), m)
    end
  else (Fulfilled tt, m).
Proof.
  destruct (resultsCache_enabled w) eqn:Hon.
  - destruct (JSON_stringify wr) as [buffer|] eqn:Hbuffer.
    + by apply write_results_cache_issued.
    + unfold write_results_cache. by rewrite Hon, Hbuffer.
  - by apply write_results_cache_disabled.
Qed.

(** What a lookup hands back is marked as a hit. *)
Lemma read_results_cache_hit w (key : string) m results :
  (read_results_cache w key m).1 = Fulfilled (Some results) →
  ∃ config head lastModified text,
    resultsCache (lightdashConfig w) = Some config ∧
    enabled config = true ∧
    s3_getResultsMetadata w key = Fulfilled (Some head) ∧
    LastModified head = Some lastModified ∧
    (now w - lastModified < cacheStateTimeSeconds config * 1000)%Z ∧
    s3_getResults w key = Fulfilled (mkGetObject (Some (Fulfilled text))) ∧
    text ≠ EmptyString ∧
    JSON_parse_rows text = Some (qr_rows results) ∧
    qr_cacheMetadata results = mkCacheMetadata true (Some lastModified).
Proof.
  rewrite read_results_cache_steps.
  destruct (resultsCache (lightdashConfig w)) as [config|]; [| done].
  destruct (enabled config) eqn:Hon; [| done]. cbv zeta.
  unfold lastModified_of.
  destruct (s3_getResultsMetadata w key) as [[head|]|e]; try done.
  destruct (LastModified head) as [lastModified|] eqn:Hlast; [| done].
  case_bool_decide as Hage; [| done].
  destruct (s3_getResults w key) as [[body]|e]; [| done]. simpl.
  destruct body as [[text|e]|]; try done.
  unfold truthy_string. case_bool_decide as Htext; [done |]. simpl.
  destruct (JSON_parse_rows text) as [parsed|] eqn:Hparsed; [| done].
  simpl. intros [= <-]. by exists config, head, lastModified, text.
Qed.

Lemma getResultsFromCacheOrWarehouse_served w (p : string) client (q : string)
    mq tags m results m' :
  read_results_cache w (queryHash p q) m = (Fulfilled (Some results), m') →
  getResultsFromCacheOrWarehouse w p client q mq tags m
  = (Fulfilled results, m').
Proof.
  intros Hread. unfold getResultsFromCacheOrWarehouse, mbind, Async_bind.
  by rewrite Hread.
Qed.

Lemma getResultsFromCacheOrWarehouse_lookup_rejected w (p : string) client
    (q : string) mq tags m e m' :
  read_results_cache w (queryHash p q) m = (Rejected e, m') →
  getResultsFromCacheOrWarehouse w p client q mq tags m = (Rejected e, m').
Proof.
  intros Hread. unfold getResultsFromCacheOrWarehouse, mbind, Async_bind.
  by rewrite Hread.
Qed.

(** After a miss the step returns as soon as the warehouse answers and the
    answer can be serialized for the write-back. *)
Lemma getResultsFromCacheOrWarehouse_miss_returns w (p : string) client
    (q : string) mq tags m m' wr :
  read_results_cache w (queryHash p q) m = (Fulfilled None, m') →
  warehouse_runQuery w client q tags = Fulfilled wr →
  resultsCache_enabled w = false ∨ is_Some (JSON_stringify wr) →
  (getResultsFromCacheOrWarehouse w p client q mq tags m).1
  = Fulfilled (mkQueryResults (rows wr) (mkCacheMetadata false None)).
Proof.
  intros Hread Hwr Hwrite.
  rewrite (getResultsFromCacheOrWarehouse_miss _ _ _ _ _ _ _ _ Hread), Hwr.
  rewrite write_results_cache_steps.
  destruct Hwrite as [-> | [buffer ->]]; [done |].
  by destruct (resultsCache_enabled w).
Qed.

Lemma read_results_cache_served w (key : string) m config head lastModified
    text parsed :
  resultsCache (lightdashConfig w) = Some config →
  enabled config = true →
  s3_getResultsMetadata w key = Fulfilled (Some head) →
  LastModified head = Some lastModified →
  (now w - lastModified < cacheStateTimeSeconds config * 1000)%Z →
  s3_getResults w key = Fulfilled (mkGetObject (Some (Fulfilled text))) →
  text ≠ EmptyString →
  JSON_parse_rows text = Some parsed →
  read_results_cache w key m =
  (Fulfilled
     (Some (mkQueryResults parsed (mkCacheMetadata true (Some lastModified)))),
   record (S3GetResults key) (record (S3GetResultsMetadata key) m)).
Proof.
  intros Hconfig Hon Hhead Hlast Hage Hentry Htext Hparsed.
  rewrite read_results_cache_steps, Hconfig, Hon. cbv zeta.
  unfold lastModified_of. rewrite Hhead, Hlast.
  rewrite bool_decide_eq_true_2 by done. rewrite Hentry. simpl.
  unfold truthy_string. rewrite bool_decide_eq_false_2 by done. simpl.
  by rewrite Hparsed.
Qed.

(** X1: a fresh entry whose payload can be read and parsed is served as it
    is: the step makes the two reads and nothing else (no query on the
    warehouse, no write), and returns the parsed rows with [cacheHit: true]
    and the entry's [LastModified] as [cacheUpdatedTime]. *)
Theorem fresh_entry_is_returned_without_warehouse w (p : string) client
    (q : string) mq tags m config head lastModified text parsed :
  resultsCache (lightdashConfig w) = Some config →
  enabled config = true →
  s3_getResultsMetadata w (queryHash p q) = Fulfilled (Some head) →
  LastModified head = Some lastModified →
  (now w - lastModified < cacheStateTimeSeconds config * 1000)%Z →
  s3_getResults w (queryHash p q)
    = Fulfilled (mkGetObject (Some (Fulfilled text))) →
  text ≠ EmptyString →
  JSON_parse_rows text = Some parsed →
  getResultsFromCacheOrWarehouse w p client q mq tags m =
  (Fulfilled (mkQueryResults parsed (mkCacheMetadata true (Some lastModified))),
   record (S3GetResults (queryHash p q))
     (record (S3GetResultsMetadata (queryHash p q)) m)).
Proof.
  intros Hconfig Hon Hhead Hlast Hage Hentry Htext Hparsed.
  apply getResultsFromCacheOrWarehouse_served.
  by apply (read_results_cache_served _ _ _ config head lastModified text).
Qed.

(** X2: every hit is a fresh one. When [runMetricQuery] returns
    [cacheHit: true], caching is enabled, the entry stored under the key of
    the returned query is younger than the threshold, the rows are the
    parsed payload of that entry, and [cacheUpdatedTime] is its
    [LastModified]. *)
Theorem cache_hit_comes_from_a_fresh_entry w (org p user : string) mq tags
    explore m res :
  (runMetricQuery w org p user mq tags explore m).1 = Fulfilled res →
  cacheHit (mq_cacheMetadata res) = true →
  ∃ config head lastModified text,
    resultsCache (lightdashConfig w) = Some config ∧
    enabled config = true ∧
    s3_getResultsMetadata w (queryHash p (mq_query res))
      = Fulfilled (Some head) ∧
    LastModified head = Some lastModified ∧
    (now w - lastModified < cacheStateTimeSeconds config * 1000)%Z ∧
    s3_getResults w (queryHash p (mq_query res))
      = Fulfilled (mkGetObject (Some (Fulfilled text))) ∧
    JSON_parse_rows text = Some (mq_rows res) ∧
    cacheUpdatedTime (mq_cacheMetadata res) = Some lastModified.
Proof.
  intros Hres Hhit.
  destruct (runMetricQuery_fulfilled _ _ _ _ _ _ _ _ _ Hres)
    as (client & tunnel & m1 & results & m2 & _ & Hstep & _ & Hrows & Hmeta).
  destruct (read_results_cache w (queryHash p (mq_query res)) m1)
    as [[[served|]|e] m'] eqn:Hread.
  - rewrite (getResultsFromCacheOrWarehouse_served _ _ _ _ _ _ _ _ _ Hread)
      in Hstep.
    injection Hstep as -> _.
    assert ((read_results_cache w (queryHash p (mq_query res)) m1).1
            = Fulfilled (Some results)) as Hserved by by rewrite Hread.
    destruct (read_results_cache_hit _ _ _ _ Hserved)
      as (config & head & lastModified & text & ? & ? & ? & ? & ? & ? & ?
          & Hparsed & Hcache).
    exists config, head, lastModified, text.
    rewrite Hrows, Hmeta, Hcache. by split_and!.
  - destruct (getResultsFromCacheOrWarehouse_miss_trace w p client
                (mq_query res) mq tags _ _ Hread) as [_ Hmiss].
    destruct (Hmiss results) as (wr & _ & ->); [by rewrite Hstep |].
    by rewrite Hmeta in Hhit.
  - by rewrite (getResultsFromCacheOrWarehouse_lookup_rejected
                  _ _ _ _ _ _ _ _ _ Hread) in Hstep.
Qed.

(** X3: a fresh entry whose payload is read and cannot be used (no [Body],
    empty text, or text [JSON.parse] refuses) is treated as a miss: after
    the two reads the query runs on the warehouse, the only calls that can
    follow are writes to the cache, and a result, when there is one, carries
    the warehouse's rows and [cacheHit: false]; there is one as soon as the
    warehouse answers and its answer can be serialized. *)
Theorem unusable_payload_falls_through_to_warehouse w (p : string) client
    (q : string) mq tags m config lastModified entry :
  resultsCache (lightdashConfig w) = Some config →
  enabled config = true →
  lastModified_of (s3_getResultsMetadata w (queryHash p q))
    = Some lastModified →
  (now w - lastModified < cacheStateTimeSeconds config * 1000)%Z →
  s3_getResults w (queryHash p q) = Fulfilled entry →
  unusable_payload entry →
  let step := getResultsFromCacheOrWarehouse w p client q mq tags m in
  (∃ writes,
     trace step.2 =
       trace m ++ [S3GetResultsMetadata (queryHash p q);
                   S3GetResults (queryHash p q);
                   WarehouseRunQuery client q tags] ++ writes ∧
     Forall (λ e, is_cache_write e = true) writes) ∧
  (∀ results, step.1 = Fulfilled results →
     ∃ wr, warehouse_runQuery w client q tags = Fulfilled wr ∧
       results = mkQueryResults (rows wr) (mkCacheMetadata false None)) ∧
  (∀ wr, warehouse_runQuery w client q tags = Fulfilled wr →
     is_Some (JSON_stringify wr) →
     step.1 = Fulfilled (mkQueryResults (rows wr) (mkCacheMetadata false None))).
Proof.
  intros Hconfig Hon Hlast Hage Hentry Hunusable. cbv zeta.
  assert (read_results_cache w (queryHash p q) m
          = (Fulfilled None,
             record (S3GetResults (queryHash p q))
               (record (S3GetResultsMetadata (queryHash p q)) m))) as Hread.
  { rewrite read_results_cache_steps, Hconfig, Hon, Hlast. cbv zeta.
    rewrite bool_decide_eq_true_2 by done. rewrite Hentry.
    unfold unusable_payload in Hunusable.
    destruct (Body entry) as [[text|e]|]; [| done | done].
    unfold truthy_string.
    destruct Hunusable as [-> | Hparse]; [done |].
    case_bool_decide; simpl; [done |]. by rewrite Hparse. }
  destruct (getResultsFromCacheOrWarehouse_miss_trace w p client q mq tags
              _ _ Hread) as [(writes & Htrace & Hwrites) Hresults].
  split; [| split; [done |]].
  - exists writes. split; [| done].
    rewrite Htrace. simpl. by rewrite <- !app_assoc.
  - intros wr Hwr Hbuffer.
    apply (getResultsFromCacheOrWarehouse_miss_returns _ _ _ _ _ _ _ _ _ Hread
             Hwr).
    by right.
Qed.

(** X4: when the metadata request fails, finds no entry, or finds one
    without [LastModified], the payload is never requested: after the one
    read the query runs on the warehouse, and the result carries the
    warehouse's rows and [cacheHit: false]. *)
Theorem missing_metadata_falls_through_to_warehouse w (p : string) client
    (q : string) mq tags m :
  resultsCache_enabled w = true →
  lastModified_of (s3_getResultsMetadata w (queryHash p q)) = None →
  let step := getResultsFromCacheOrWarehouse w p client q mq tags m in
  (∃ writes,
     trace step.2 =
       trace m ++ [S3GetResultsMetadata (queryHash p q);
                   WarehouseRunQuery client q tags] ++ writes ∧
     Forall (λ e, is_cache_write e = true) writes) ∧
  (∀ results, step.1 = Fulfilled results →
     ∃ wr, warehouse_runQuery w client q tags = Fulfilled wr ∧
       results = mkQueryResults (rows wr) (mkCacheMetadata false None)) ∧
  (∀ wr, warehouse_runQuery w client q tags = Fulfilled wr →
     is_Some (JSON_stringify wr) →
     step.1 = Fulfilled (mkQueryResults (rows wr) (mkCacheMetadata false None))).
Proof.
  intros Hon Hnone. cbv zeta.
  assert (read_results_cache w (queryHash p q) m
          = (Fulfilled None,
             record (S3GetResultsMetadata (queryHash p q)) m)) as Hread.
  { rewrite read_results_cache_steps. unfold resultsCache_enabled in Hon.
    destruct (resultsCache (lightdashConfig w)) as [config|]; [| done].
    by rewrite Hon, Hnone. }
  destruct (getResultsFromCacheOrWarehouse_miss_trace w p client q mq tags
              _ _ Hread) as [(writes & Htrace & Hwrites) Hresults].
  split; [| split; [done |]].
  - exists writes. split; [| done].
    rewrite Htrace. simpl. by rewrite <- !app_assoc.
  - intros wr Hwr Hbuffer.
    apply (getResultsFromCacheOrWarehouse_miss_returns _ _ _ _ _ _ _ _ _ Hread
             Hwr).
    by right.
Qed.

(** X5: when the entry is fresh and the payload request is rejected (the
    request itself, or the reading of the body), the step is rejected with
    that error right after the two reads: the warehouse is not queried. *)
Theorem payload_failure_rejects_the_step w (p : string) client (q : string)
    mq tags m config lastModified e :
  resultsCache (lightdashConfig w) = Some config →
  enabled config = true →
  lastModified_of (s3_getResultsMetadata w (queryHash p q))
    = Some lastModified →
  (now w - lastModified < cacheStateTimeSeconds config * 1000)%Z →
  s3_getResults w (queryHash p q) = Rejected e ∨
  (∃ entry, s3_getResults w (queryHash p q) = Fulfilled entry ∧
            Body entry = Some (Rejected e)) →
  getResultsFromCacheOrWarehouse w p client q mq tags m =
  (Rejected e,
   record (S3GetResults (queryHash p q))
     (record (S3GetResultsMetadata (queryHash p q)) m)).
Proof.
  intros Hconfig Hon Hlast Hage Hpayload.
  apply getResultsFromCacheOrWarehouse_lookup_rejected.
  rewrite read_results_cache_steps, Hconfig, Hon, Hlast. cbv zeta.
  rewrite bool_decide_eq_true_2 by done.
  destruct Hpayload as [-> | (entry & -> & ->)]; done.
Qed.

Lemma count_events_where (f g : Event → bool) (l : list Event) :
  (∀ e, g e = true → f e = false) →
  Forall (λ e, g e = true) l → count_events f l = 0.
Proof.
  intros Hfg Hl. apply count_events_none.
  eapply Forall_impl; [exact Hl | exact Hfg].
Qed.

(** The step queries the warehouse at most once, writes to the cache only
    after having queried it, and its [cacheHit] says whether it did. *)
Lemma getResultsFromCacheOrWarehouse_warehouse_runs w (p : string) client
    (q : string) mq tags m :
  let step := getResultsFromCacheOrWarehouse w p client q mq tags m in
  ∃ evs,
    trace step.2 = trace m ++ evs ∧
    count_events is_warehouse_run evs ≤ 1 ∧
    count_events is_cache_write evs ≤ count_events is_warehouse_run evs ∧
    ∀ results, step.1 = Fulfilled results →
      count_events is_warehouse_run evs
      = if cacheHit (qr_cacheMetadata results) then 0 else 1.
Proof.
  cbv zeta.
  destruct (emits_only_read_results_cache w (λ e, is_cache_read e = true)
              (queryHash p q) eq_refl eq_refl m)
    as [(reads & Hreads & Hall) _].
  assert (count_events is_warehouse_run reads = 0) as Hruns.
  { apply (count_events_where _ is_cache_read); [by intros [] | done]. }
  assert (count_events is_cache_write reads = 0) as Hwrites.
  { apply (count_events_where _ is_cache_read); [by intros [] | done]. }
  destruct (read_results_cache w (queryHash p q) m)
    as [[[served|]|e] m'] eqn:Hread; simpl in Hreads.
  - rewrite (getResultsFromCacheOrWarehouse_served _ _ _ _ _ _ _ _ _ Hread).
    exists reads. rewrite Hruns, Hwrites. split_and!; [done | lia | lia |].
    intros results [= <-].
    assert ((read_results_cache w (queryHash p q) m).1
            = Fulfilled (Some served)) as Hserved by by rewrite Hread.
    destruct (read_results_cache_hit _ _ _ _ Hserved)
      as (? & ? & ? & ? & _ & _ & _ & _ & _ & _ & _ & _ & ->).
    done.
  - rewrite (getResultsFromCacheOrWarehouse_miss _ _ _ _ _ _ _ _ Hread).
    destruct (warehouse_runQuery w client q tags) as [wr|e].
    + rewrite write_results_cache_steps.
      destruct (resultsCache_enabled w);
        [destruct (JSON_stringify wr) as [buffer|] |]; simpl.
      * exists (reads ++ [WarehouseRunQuery client q tags;
                          S3UploadResults (queryHash p q) buffer tags]).
        rewrite Hreads, <- !app_assoc, !count_events_app, Hruns, Hwrites.
        split_and!; [done | unfold count_events; simpl; lia | unfold count_events; simpl; lia |].
        by intros results [= <-].
      * exists (reads ++ [WarehouseRunQuery client q tags]).
        rewrite Hreads, <- !app_assoc, !count_events_app, Hruns, Hwrites.
        by split_and!; [done | unfold count_events; simpl; lia | unfold count_events; simpl; lia |].
      * exists (reads ++ [WarehouseRunQuery client q tags]).
        rewrite Hreads, <- !app_assoc, !count_events_app, Hruns, Hwrites.
        split_and!; [done | unfold count_events; simpl; lia | unfold count_events; simpl; lia |].
        by intros results [= <-].
    + simpl. exists (reads ++ [WarehouseRunQuery client q tags]).
      rewrite Hreads, <- !app_assoc, !count_events_app, Hruns, Hwrites.
      by split_and!; [done | unfold count_events; simpl; lia | unfold count_events; simpl; lia |].
  - rewrite (getResultsFromCacheOrWarehouse_lookup_rejected
               _ _ _ _ _ _ _ _ _ Hread).
    exists reads. rewrite Hruns, Hwrites. by split_and!; [done | lia | lia |].
Qed.

(** X6: one invocation of [runMetricQuery] queries the warehouse at most
    once (there is no retry), writes to the cache only if it queried the
    warehouse, and the [cacheHit] it returns is truthful: [true] exactly
    when the warehouse was not queried. *)
Theorem cacheHit_tells_whether_the_warehouse_ran w (org p user : string) mq
    tags explore m :
  let run := runMetricQuery w org p user mq tags explore m in
  ∃ evs,
    trace run.2 = trace m ++ evs ∧
    count_events is_warehouse_run evs ≤ 1 ∧
    count_events is_cache_write evs ≤ count_events is_warehouse_run evs ∧
    ∀ res, run.1 = Fulfilled res →
      count_events is_warehouse_run evs
      = if cacheHit (mq_cacheMetadata res) then 0 else 1.
Proof.
  cbv zeta. rewrite runMetricQuery_steps.
  destruct (emits_only_getWarehouseClient w (λ e, is_connect e = true) p
              (λ _, eq_refl) m) as [(evs1 & Htrace1 & Hall1) _].
  assert (count_events is_warehouse_run evs1 = 0) as Hruns1.
  { apply (count_events_where _ is_connect); [by intros [] | done]. }
  assert (count_events is_cache_write evs1 = 0) as Hwrites1.
  { apply (count_events_where _ is_connect); [by intros [] | done]. }
  destruct (getWarehouseClient w p m) as [[[client tunnel]|e] m1];
    simpl in Htrace1.
  2: { exists evs1. rewrite Hruns1, Hwrites1.
       by split_and!; [done | lia | lia |]. }
  destruct (queryCompiler_compileMetricQuery explore mq client) as [compiled|].
  2: { exists evs1. rewrite Hruns1, Hwrites1.
       by split_and!; [done | lia | lia |]. }
  destruct (queryBuilder_buildQuery _ _ _ _) as [[query hem]|].
  2: { exists evs1. rewrite Hruns1, Hwrites1.
       by split_and!; [done | lia | lia |]. }
  destruct (getResultsFromCacheOrWarehouse_warehouse_runs w p client query mq
              tags m1) as (evs2 & Htrace2 & Hle & Hwrites2 & Hhit).
  destruct (getResultsFromCacheOrWarehouse w p client query mq tags m1)
    as [[results|e] m2]; simpl in Htrace2, Hhit.
  2: { exists (evs1 ++ evs2). simpl.
       rewrite Htrace2, Htrace1, <- !app_assoc, !count_events_app.
       rewrite Hruns1, Hwrites1. by split_and!; [done | lia | lia |]. }
  exists (evs1 ++ evs2 ++ [TunnelDisconnect]).
  split_and!.
  - destruct (ssh_disconnect w); simpl;
      by rewrite Htrace2, Htrace1, <- !app_assoc.
  - rewrite !count_events_app, Hruns1.
    change (count_events is_warehouse_run [TunnelDisconnect]) with 0. lia.
  - rewrite !count_events_app, Hruns1, Hwrites1.
    change (count_events is_warehouse_run [TunnelDisconnect]) with 0.
    change (count_events is_cache_write [TunnelDisconnect]) with 0. lia.
  - intros res Hres. rewrite !count_events_app, Hruns1.
    change (count_events is_warehouse_run [TunnelDisconnect]) with 0.
    destruct (ssh_disconnect w); [| done].
    injection Hres as <-. simpl. rewrite (Hhit results eq_refl). lia.
Qed.

(** X7: the cache round trip. A first call finds no entry, queries the
    warehouse and uploads the serialized results under the key of (project,
    query text). When the store later holds that upload as a fresh entry and
    [JSON.parse] gives back the rows that were serialized, a second call for
    the same project and text, whoever makes it, returns the rows of the
    first call with [cacheHit: true] and does not query the warehouse. *)
Theorem cache_round_trip w1 w2 (p q : string) client1 client2 mq1 mq2 tags1
    tags2 m config head lastModified wr buffer :
  resultsCache_enabled w1 = true →
  lastModified_of (s3_getResultsMetadata w1 (queryHash p q)) = None →
  warehouse_runQuery w1 client1 q tags1 = Fulfilled wr →
  JSON_stringify wr = Some buffer →
  resultsCache (lightdashConfig w2) = Some config →
  enabled config = true →
  s3_getResultsMetadata w2 (queryHash p q) = Fulfilled (Some head) →
  LastModified head = Some lastModified →
  (now w2 - lastModified < cacheStateTimeSeconds config * 1000)%Z →
  s3_getResults w2 (queryHash p q)
    = Fulfilled (mkGetObject (Some (Fulfilled buffer))) →
  buffer ≠ EmptyString →
  JSON_parse_rows buffer = Some (rows wr) →
  let first := getResultsFromCacheOrWarehouse w1 p client1 q mq1 tags1 m in
  let second :=
    getResultsFromCacheOrWarehouse w2 p client2 q mq2 tags2 first.2 in
  S3UploadResults (queryHash p q) buffer tags1 ∈ trace first.2 ∧
  first.1
    = Fulfilled (mkQueryResults (rows wr) (mkCacheMetadata false None)) ∧
  second.1
    = Fulfilled
        (mkQueryResults (rows wr) (mkCacheMetadata true (Some lastModified))) ∧
  count_events is_warehouse_run (trace second.2)
    = count_events is_warehouse_run (trace first.2).
Proof.
  intros Hon1 Hnone Hwr Hbuffer Hconfig Hon Hhead Hlast Hage Hentry Htext
    Hparsed. cbv zeta.
  assert (read_results_cache w1 (queryHash p q) m
          = (Fulfilled None,
             record (S3GetResultsMetadata (queryHash p q)) m)) as Hread.
  { rewrite read_results_cache_steps. unfold resultsCache_enabled in Hon1.
    destruct (resultsCache (lightdashConfig w1)) as [config1|]; [| done].
    by rewrite Hon1, Hnone. }
  rewrite (getResultsFromCacheOrWarehouse_miss _ _ _ _ _ _ _ _ Hread), Hwr.
  rewrite write_results_cache_steps, Hon1, Hbuffer. cbn [fst snd].
  set (m1 := record (S3UploadResults (queryHash p q) buffer tags1) _).
  rewrite (getResultsFromCacheOrWarehouse_served w2 p client2 q mq2 tags2 m1 _
             _ (read_results_cache_served _ _ _ _ _ _ _ _ Hconfig Hon Hhead
                  Hlast Hage Hentry Htext Hparsed)).
  split_and!; [| done | done |].
  - subst m1. simpl. apply elem_of_app. right. apply list_elem_of_here.
  - simpl. by rewrite !count_events_app, !Nat.add_0_r.
Qed.

(** * Further properties of client resolution and of the tunnel *)

Lemma getWarehouseCredentialsForProject_stateless w (p : string) m m' :
  (getWarehouseCredentialsForProject w p m).1
  = (getWarehouseCredentialsForProject w p m').1.
Proof.
  unfold getWarehouseCredentialsForProject.
  destruct (select_warehouse_credentials w p) as [|row rest]; [done |].
  by destruct (decrypt (encrypted_credentials row) ≫= JSON_parse_credentials).
Qed.

(** What a successful resolution leaves behind. *)
Lemma getWarehouseClient_fulfilled w (p : string) m client tunnel m1 :
  getWarehouseClient w p m = (Fulfilled (client, tunnel), m1) →
  (getWarehouseCredentialsForProject w p m).1
    = Fulfilled (originalCredentials tunnel) ∧
  ssh_connect w (originalCredentials tunnel) = Fulfilled (credentials client) ∧
  trace m1 = trace m ++ [TunnelConnected (credentials client)] ∧
  cachedWarehouseClients m1 !! p = Some client ∧
  (∀ k, k ≠ p → cachedWarehouseClients m1 !! k = cachedWarehouseClients m !! k) ∧
  unhandledRejections m1 = unhandledRejections m.
Proof.
  rewrite getWarehouseClient_steps.
  destruct ((getWarehouseCredentialsForProject w p m).1) as [creds|e];
    [| done].
  destruct (ssh_connect w creds) as [effective|e] eqn:Hconnect; [| done].
  cbv zeta.
  destruct (cachedWarehouseClients m !! p) as [existing|] eqn:Hentry.
  - unfold deepEqual. case_bool_decide as Heq.
    + intros [= <- <- <-]. simpl. by rewrite Hconnect, Heq.
    + intros [= <- <- <-]. simpl. rewrite Hconnect.
      split_and!; try done; [apply lookup_insert_eq |].
      intros k Hk. by rewrite lookup_insert_ne.
  - intros [= <- <- <-]. simpl. rewrite Hconnect.
    split_and!; try done; [apply lookup_insert_eq |].
    intros k Hk. by rewrite lookup_insert_ne.
Qed.

(** A resolution that fails leaves the model as it was. *)
Lemma getWarehouseClient_rejected w (p : string) m e :
  (getWarehouseClient w p m).1 = Rejected e →
  getWarehouseClient w p m = (Rejected e, m) ∧
  ((getWarehouseCredentialsForProject w p m).1 = Rejected e ∨
   ∃ creds, (getWarehouseCredentialsForProject w p m).1 = Fulfilled creds ∧
            ssh_connect w creds = Rejected e).
Proof.
  rewrite getWarehouseClient_steps.
  destruct ((getWarehouseCredentialsForProject w p m).1) as [creds|e'].
  - destruct (ssh_connect w creds) as [effective|e'] eqn:Hconnect.
    + cbv zeta. destruct (cachedWarehouseClients m !! p) as [existing|];
        [destruct (deepEqual (credentials existing) effective) |]; done.
    + intros [= ->]. split; [done |]. right. by exists creds.
  - intros [= ->]. split; [done |]. by left.
Qed.

(** X8: [runQuery] never consults or fills the result cache, whatever the
    configuration. When it returns, what it returns is the answer of the
    warehouse to the query as given, and the calls made are exactly:
    connect, query, disconnect. *)
Theorem runQuery_bypasses_result_cache w (p q : string) tags m :
  let run := runQuery w p q tags m in
  ∃ evs,
    trace run.2 = trace m ++ evs ∧
    Forall (λ e, is_cache_read e = false ∧ is_cache_write e = false) evs ∧
    ∀ res, run.1 = Fulfilled res →
      ∃ client,
        evs = [TunnelConnected (credentials client);
               WarehouseRunQuery client q (Some tags); TunnelDisconnect] ∧
        warehouse_runQuery w client q (Some tags) = Fulfilled res.
Proof.
  cbv zeta.
  destruct (emits_only_runQuery w
              (λ e, is_cache_read e = false ∧ is_cache_write e = false)
              p q tags (λ _, conj eq_refl eq_refl) (conj eq_refl eq_refl)
              (λ _, conj eq_refl eq_refl) m) as [(evs & Htrace & Hevs) _].
  exists evs. split; [done |]. split; [done |].
  intros res Hres. revert Htrace Hres.
  unfold runQuery, mbind, Async_bind.
  destruct (getWarehouseClient w p m) as [[[client tunnel]|e] m1] eqn:Hclient;
    [| done].
  apply getWarehouseClient_fulfilled in Hclient as (_ & _ & Htrace1 & _).
  unfold emit, await, SshTunnel_disconnect, mbind, Async_bind, emit, await.
  simpl.
  destruct (warehouse_runQuery w client q (Some tags)) as [wr|e] eqn:Hwr;
    [| done].
  simpl. destruct (ssh_disconnect w); simpl; [| by intros _ [=]].
  intros Htrace [= <-]. exists client. split; [| done].
  rewrite Htrace1, <- !app_assoc in Htrace. simpl in Htrace.
  by apply app_inv_head in Htrace.
Qed.

Lemma read_results_cache_keeps_registry w (key : string) m :
  cachedWarehouseClients (read_results_cache w key m).2
  = cachedWarehouseClients m.
Proof.
  rewrite read_results_cache_steps. cbv zeta. repeat case_match; reflexivity.
Qed.

Lemma getResultsFromCacheOrWarehouse_keeps_registry w (p : string) client
    (q : string) mq tags m :
  cachedWarehouseClients (getResultsFromCacheOrWarehouse w p client q mq tags m).2
  = cachedWarehouseClients m.
Proof.
  pose proof (read_results_cache_keeps_registry w (queryHash p q) m) as Hread.
  destruct (read_results_cache w (queryHash p q) m)
    as [[[served|]|e] m'] eqn:Hlookup; simpl in Hread.
  - by rewrite (getResultsFromCacheOrWarehouse_served _ _ _ _ _ _ _ _ _ Hlookup).
  - rewrite (getResultsFromCacheOrWarehouse_miss _ _ _ _ _ _ _ _ Hlookup).
    destruct (warehouse_runQuery w client q tags) as [wr|e]; [| done].
    rewrite write_results_cache_steps.
    destruct (resultsCache_enabled w); [destruct (JSON_stringify wr) |];
      simpl; done.
  - by rewrite (getResultsFromCacheOrWarehouse_lookup_rejected
                  _ _ _ _ _ _ _ _ _ Hlookup).
Qed.

(** X9: on its success path [runMetricQuery] does all its work inside the
    tunnel: the first call of the invocation is the connect, the last one
    the disconnect, no other connect or disconnect lies between them, and
    the [warehouseType] returned is the type of the credentials the tunnel
    handed to the client. *)
Theorem runMetricQuery_works_inside_the_tunnel w (org p user : string) mq tags
    explore m res :
  (runMetricQuery w org p user mq tags explore m).1 = Fulfilled res →
  ∃ effective middle,
    trace (runMetricQuery w org p user mq tags explore m).2
      = trace m ++ TunnelConnected effective :: middle ++ [TunnelDisconnect] ∧
    Forall (λ e, is_connect e = false ∧ is_disconnect e = false) middle ∧
    mq_warehouseType res = type effective.
Proof.
  rewrite runMetricQuery_steps.
  destruct (getWarehouseClient w p m) as [[[client tunnel]|e] m1] eqn:Hclient;
    [| done].
  apply getWarehouseClient_fulfilled in Hclient as (_ & _ & Htrace1 & _).
  destruct (queryCompiler_compileMetricQuery explore mq client); [| done].
  destruct (queryBuilder_buildQuery _ _ _ _) as [[query hem]|]; [| done].
  destruct (getResultsFromCacheOrWarehouse_leaves_tunnel w p client query mq
              tags m1) as [(middle & Htrace2 & Hmiddle) _].
  destruct (getResultsFromCacheOrWarehouse w p client query mq tags m1)
    as [[results|e] m2]; [| done].
  destruct (ssh_disconnect w); [| done].
  simpl in *. intros [= <-]. exists (credentials client), middle.
  split; [| done]. by rewrite Htrace2, Htrace1, <- !app_assoc.
Qed.

Lemma compileMetricQuery_steps w (org p user : string) mq explore m :
  compileMetricQuery w org p user mq explore m =
  match getWarehouseClient w p m with
  | (Rejected e, m1) => (Rejected e, m1)
  | (Fulfilled (client, tunnel), m1) =>
      match queryCompiler_compileMetricQuery explore mq client with
      | None => (Rejected (ExternalError FromCompiler), m1)
      | Some compiled =>
          match queryBuilder_buildQuery explore compiled client
                  (attribute_values w org user) with
          | None => (Rejected (ExternalError FromCompiler), m1)
          | Some built => (Fulfilled built, m1)
          end
      end
  end.
Proof.
  unfold compileMetricQuery, mbind, Async_bind.
  destruct (getWarehouseClient w p m) as [[[client tunnel]|e] m1]; [| done].
  simpl.
  destruct (queryCompiler_compileMetricQuery explore mq client); [| done].
  simpl. by destruct (queryBuilder_buildQuery _ _ _ _).
Qed.

(** X10: when the compilation of the metric query throws (in the compiler
    or in the query builder), [runMetricQuery] and [compileMetricQuery] are
    rejected right after the tunnel was connected: the only call of the
    invocation is the connect, so the warehouse is not queried and the
    tunnel is not disconnected. *)
Theorem compile_failure_leaves_tunnel_open w (org p user : string) mq tags
    explore m client tunnel m1 :
  getWarehouseClient w p m = (Fulfilled (client, tunnel), m1) →
  queryCompiler_compileMetricQuery explore mq client = None ∨
  (∃ compiled,
     queryCompiler_compileMetricQuery explore mq client = Some compiled ∧
     queryBuilder_buildQuery explore compiled client
       (attribute_values w org user) = None) →
  runMetricQuery w org p user mq tags explore m
    = (Rejected (ExternalError FromCompiler), m1) ∧
  compileMetricQuery w org p user mq explore m
    = (Rejected (ExternalError FromCompiler), m1) ∧
  trace m1 = trace m ++ [TunnelConnected (credentials client)].
Proof.
  intros Hclient Hfailure.
  split; [| split].
  - rewrite runMetricQuery_steps, Hclient.
    by destruct Hfailure as [-> | (compiled & -> & ->)].
  - rewrite compileMetricQuery_steps, Hclient.
    by destruct Hfailure as [-> | (compiled & -> & ->)].
  - by apply getWarehouseClient_fulfilled in Hclient as (_ & _ & ? & _).
Qed.

(** X11: [compileMetricQuery] connects the tunnel and never disconnects
    it: a successful call has made exactly one call to the outside, the
    connect. It queries neither warehouse nor cache, and the query text it
    returns is the one [runMetricQuery] runs from the same state. *)
Theorem compileMetricQuery_connects_and_compiles_only w (org p user : string)
    mq tags explore m query hasExampleMetric :
  (compileMetricQuery w org p user mq explore m).1
    = Fulfilled (query, hasExampleMetric) →
  (∃ effective,
     trace (compileMetricQuery w org p user mq explore m).2
       = trace m ++ [TunnelConnected effective]) ∧
  ∀ res,
    (runMetricQuery w org p user mq tags explore m).1 = Fulfilled res →
    mq_query res = query ∧ mq_hasExampleMetric res = hasExampleMetric.
Proof.
  rewrite runMetricQuery_steps, compileMetricQuery_steps.
  destruct (getWarehouseClient w p m) as [[[client tunnel]|e] m1] eqn:Hclient;
    [| done].
  apply getWarehouseClient_fulfilled in Hclient as (_ & _ & Htrace1 & _).
  destruct (queryCompiler_compileMetricQuery explore mq client); [| done].
  destruct (queryBuilder_buildQuery _ _ _ _) as [[query' hem]|]; [| done].
  simpl. intros [= -> ->]. split; [by eauto |].
  intros res.
  destruct (getResultsFromCacheOrWarehouse _ _ _ _ _ _ _) as [[results|e] m2];
    [| done].
  destruct (ssh_disconnect w); [| done].
  by intros [= <-].
Qed.

(** X12: when the disconnect is rejected, neither [runMetricQuery] nor
    [runQuery] ever returns rows, whatever the warehouse answered; once the
    disconnect was invoked the call is rejected with its error. *)
Theorem failed_disconnect_fails_the_call w (org p user q : string) mq tags
    qtags explore m e :
  ssh_disconnect w = Rejected e →
  (∀ res, (runMetricQuery w org p user mq tags explore m).1 ≠ Fulfilled res) ∧
  (∀ res, (runQuery w p q qtags m).1 ≠ Fulfilled res) ∧
  (TunnelDisconnect ∈ trace (runMetricQuery w org p user mq tags explore m).2 →
   TunnelDisconnect ∉ trace m →
   (runMetricQuery w org p user mq tags explore m).1 = Rejected e).
Proof.
  intros Hdisconnect. split; [| split].
  - intros res. rewrite runMetricQuery_steps, Hdisconnect.
    by repeat case_match.
  - intros res. unfold runQuery, SshTunnel_disconnect, mbind, Async_bind.
    destruct (getWarehouseClient w p m) as [[[client tunnel]|e'] m1]; [| done].
    unfold emit, await. simpl.
    destruct (warehouse_runQuery w client q (Some qtags)); [| done].
    simpl. by rewrite Hdisconnect.
  - rewrite runMetricQuery_steps, Hdisconnect.
    destruct (emits_only_getWarehouseClient w (λ e, is_disconnect e = false) p
                (λ _, eq_refl) m) as [(evs1 & Htrace1 & Hevs1) _].
    assert (∀ evs, Forall (λ e, is_disconnect e = false) evs →
                   TunnelDisconnect ∉ evs) as Hnone.
    { intros evs Hevs Hin. rewrite Forall_forall in Hevs.
      by apply Hevs in Hin. }
    destruct (getWarehouseClient w p m) as [[[client tunnel]|e'] m1];
      simpl in Htrace1.
    2: { simpl. rewrite Htrace1. intros [|Hin]%elem_of_app Hm; [done |].
         by apply Hnone in Hin. }
    assert (TunnelDisconnect ∈ trace m1 → TunnelDisconnect ∉ trace m → False)
      as Hm1.
    { rewrite Htrace1. intros [|Hin]%elem_of_app Hm; [done |].
      by apply Hnone in Hin. }
    destruct (queryCompiler_compileMetricQuery explore mq client);
      [| simpl; intros; by exfalso; auto].
    destruct (queryBuilder_buildQuery _ _ _ _) as [[query hem]|];
      [| simpl; intros; by exfalso; auto].
    destruct (getResultsFromCacheOrWarehouse_leaves_tunnel w p client query mq
                tags m1) as [(evs2 & Htrace2 & Hevs2) _].
    destruct (getResultsFromCacheOrWarehouse w p client query mq tags m1)
      as [[results|e'] m2]; simpl in *; [done |].
    rewrite Htrace2. intros [Hin|Hin]%elem_of_app Hm; [by exfalso; auto |].
    exfalso. apply (Hnone evs2); [| done].
    eapply Forall_impl; [exact Hevs2 |]. by intros ? [].
Qed.

(** X13: when the client cannot be resolved (the credentials cannot be
    found or decoded, or the tunnel cannot be connected), [runMetricQuery],
    [runQuery] and [compileMetricQuery] are rejected with the error of the
    resolution and leave everything as it was: no call to the outside is
    recorded, and the registry is untouched. *)
Theorem failed_resolution_changes_nothing w (org p user q : string) mq tags
    qtags explore m e :
  (getWarehouseClient w p m).1 = Rejected e →
  ((getWarehouseCredentialsForProject w p m).1 = Rejected e ∨
   ∃ creds, (getWarehouseCredentialsForProject w p m).1 = Fulfilled creds ∧
            ssh_connect w creds = Rejected e) ∧
  runMetricQuery w org p user mq tags explore m = (Rejected e, m) ∧
  runQuery w p q qtags m = (Rejected e, m) ∧
  compileMetricQuery w org p user mq explore m = (Rejected e, m).
Proof.
  intros Hfailed.
  apply getWarehouseClient_rejected in Hfailed as [Hclient Hwhy].
  split; [done |].
  rewrite runMetricQuery_steps, compileMetricQuery_steps.
  unfold runQuery, mbind, Async_bind. by rewrite Hclient.
Qed.

(** X14: an invocation of [runMetricQuery] changes the client registry at
    the key of its project at most; when it returns, the registry holds
    under that key a client whose credentials have the returned
    [warehouseType]. *)
Theorem runMetricQuery_touches_its_project_only w (org p user : string) mq tags
    explore m :
  let run := runMetricQuery w org p user mq tags explore m in
  (∀ k, k ≠ p →
     cachedWarehouseClients run.2 !! k = cachedWarehouseClients m !! k) ∧
  ∀ res, run.1 = Fulfilled res →
    ∃ client, cachedWarehouseClients run.2 !! p = Some client ∧
      type (credentials client) = mq_warehouseType res.
Proof.
  cbv zeta. rewrite runMetricQuery_steps.
  destruct (getWarehouseClient w p m) as [[[client tunnel]|e] m1] eqn:Hclient.
  2: { apply (f_equal fst) in Hclient as Hfailed. simpl in Hfailed.
       apply getWarehouseClient_rejected in Hfailed as [Hsame _].
       rewrite Hclient in Hsame. by injection Hsame as ->. }
  apply getWarehouseClient_fulfilled in Hclient
    as (_ & _ & _ & Hentry & Hothers & _).
  destruct (queryCompiler_compileMetricQuery explore mq client); [| done].
  destruct (queryBuilder_buildQuery _ _ _ _) as [[query hem]|]; [| done].
  pose proof (getResultsFromCacheOrWarehouse_keeps_registry w p client query
                mq tags m1) as Hkept.
  destruct (getResultsFromCacheOrWarehouse w p client query mq tags m1)
    as [[results|e] m2]; simpl in Hkept.
  - destruct (ssh_disconnect w); simpl; rewrite Hkept; (split; [done |]);
      [| done].
    intros res [= <-]. by exists client.
  - simpl. by rewrite Hkept.
Qed.

(** X15: client resolution is idempotent. Resolving again in the same
    world, right after a successful resolution, returns the very same client
    instance, constructs nothing and leaves the registry as it is. *)
Theorem getWarehouseClient_twice_returns_the_same_client w (p : string) m
    client tunnel m1 :
  getWarehouseClient w p m = (Fulfilled (client, tunnel), m1) →
  getWarehouseClient w p m1
  = (Fulfilled (client, tunnel),
     record (TunnelConnected (credentials client)) m1).
Proof.
  intros Hfirst.
  apply getWarehouseClient_fulfilled in Hfirst
    as (Hcreds & Hconnect & _ & Hentry & _).
  rewrite getWarehouseClient_steps.
  rewrite (getWarehouseCredentialsForProject_stateless w p m1 m), Hcreds.
  rewrite Hconnect. cbv zeta. rewrite Hentry.
  unfold deepEqual. rewrite bool_decide_eq_true_2 by done.
  by destruct tunnel.
Qed.

(** * Further properties of the cache key *)

Lemma hashed_text_injective_dot_free (p1 q1 p2 q2 : string) :
  dot_free p1 = true → dot_free p2 = true →
  p1 +:+ "." +:+ q1 = p2 +:+ "." +:+ q2 → p1 = p2 ∧ q1 = q2.
Proof.
  revert p2. induction p1 as [|c1 p1 IH]; intros [|c2 p2] Hfree1 Hfree2 Heq.
  - split; [done |]. by apply (inj (String.append ".")) in Heq.
  - simpl in Heq, Hfree2. injection Heq as <- _.
    by rewrite bool_decide_eq_true_2 in Hfree2.
  - simpl in Heq, Hfree1. injection Heq as -> _.
    by rewrite bool_decide_eq_true_2 in Hfree1.
  - simpl in Heq, Hfree1, Hfree2. injection Heq as -> Hrest.
    apply andb_prop in Hfree1 as [_ Hfree1].
    apply andb_prop in Hfree2 as [_ Hfree2].
    by destruct (IH p2 Hfree1 Hfree2 Hrest) as [-> ->].
Qed.

(** X16: for project identifiers without a full stop, as UUIDs are, the
    hashed text determines both the project and the query text: two
    different (project, text) pairs are hashed from different texts, and
    their keys differ unless SHA-256 itself collides. *)
Theorem queryHash_separates_dot_free_projects (p1 q1 p2 q2 : string) :
  dot_free p1 = true → dot_free p2 = true →
  (p1, q1) ≠ (p2, q2) →
  p1 +:+ "." +:+ q1 ≠ p2 +:+ "." +:+ q2 ∧
  (queryHash p1 q1 ≠ queryHash p2 q2 ∨
   ∃ x y : string, x ≠ y ∧ sha256_hex x = sha256_hex y).
Proof.
  intros Hfree1 Hfree2 Hne.
  assert (p1 +:+ "." +:+ q1 ≠ p2 +:+ "." +:+ q2) as Htext.
  { intros Heq. apply Hne.
    by destruct (hashed_text_injective_dot_free _ _ _ _ Hfree1 Hfree2 Heq)
      as [-> ->]. }
  split; [done |].
  destruct (decide (queryHash p1 q1 = queryHash p2 q2)) as [Heq | Hkeys];
    [right | by left].
  by exists (p1 +:+ "." +:+ q1), (p2 +:+ "." +:+ q2).
Qed.

(** * Further properties of the attribute values *)

Lemma elem_of_leftJoin {L R J} (on : J → R → bool) (left : list (L * J))
    (right : list R) (l : L) (o : option R) :
  (l, o) ∈ leftJoin on left right →
  ∃ j, (l, j) ∈ left ∧
       match o with
       | Some r => r ∈ right ∧ on j r = true
       | None => True
       end.
Proof.
  unfold leftJoin. rewrite list_elem_of_In, in_flat_map.
  intros ([l' j] & Hin & Hrow). simpl in Hrow.
  apply list_elem_of_In in Hin.
  destruct (List.filter (on j) right) as [|r0 matches] eqn:Hfilter.
  - destruct Hrow as [[= <- <-] | []]. by exists j.
  - change (In (l, o) (map (λ r : R, (l', Some r)) (r0 :: matches))) in Hrow.
    rewrite <- Hfilter in Hrow. apply in_map_iff in Hrow
      as (r & [= <- <-] & Hr). apply filter_In in Hr as [Hr Hon].
    exists j. split; [done |]. split; [by apply list_elem_of_In | done].
Qed.

Lemma last_named_elem_of {V} (n : string) (l : list (string * V)) (v : V) :
  last_named n l = Some v → (n, v) ∈ l.
Proof.
  induction l as [|[k x] l IH]; simpl; [done |].
  destruct (last_named n l) as [later|].
  - intros [= <-]. apply list_elem_of_further. by apply IH.
  - case_bool_decide; [| done]. intros [= <-]. subst. apply list_elem_of_here.
Qed.

(** The rows of the first query belong to attributes of the organization. *)
Lemma elem_of_select_attribute_defaults w (org n : string) d :
  (n, d) ∈ select_attribute_defaults w org →
  ∃ a o, a ∈ user_attributes (database w) ∧
         o ∈ organizations (database w) ∧
         ua_organization_id a = organization_id o ∧
         organization_uuid o = org ∧
         name a = n ∧ attribute_default a = d.
Proof.
  unfold select_attribute_defaults.
  rewrite list_elem_of_In, in_map_iff.
  intros ([a o] & [= <- <-] & Hrow). simpl.
  apply filter_In in Hrow as [Hrow Horg]. simpl in Horg.
  apply list_elem_of_In, elem_of_leftJoin in Hrow as (oid & Hleft & Hright).
  apply list_elem_of_In, in_map_iff in Hleft as (a' & [= <- <-] & Ha).
  destruct o as [o|]; [| done]. simpl in Horg.
  destruct Hright as [Ho Hid].
  apply bool_decide_eq_true in Horg. apply bool_decide_eq_true in Hid.
  exists a', o. split_and!; try done. by apply list_elem_of_In.
Qed.

(** The rows of the second query belong to values of the user in the
    organization. *)
Lemma elem_of_select_user_values w (org user : string) nm v :
  (nm, v) ∈ select_user_values w org user →
  ∃ row u o,
    row ∈ organization_member_user_attributes (database w) ∧
    u ∈ users (database w) ∧ o ∈ organizations (database w) ∧
    ma_user_id row = user_id u ∧ user_uuid u = user ∧
    ma_organization_id row = organization_id o ∧ organization_uuid o = org ∧
    value row = v.
Proof.
  unfold select_user_values.
  rewrite list_elem_of_In, in_map_iff.
  intros ([[[row ou] oo] oa] & [= <- <-] & Hrow). simpl.
  apply filter_In in Hrow as [Hrow Hwhere]. simpl in Hwhere.
  apply andb_prop in Hwhere as [Horg Huser].
  apply list_elem_of_In, elem_of_leftJoin in Hrow as (uuid & Hrow & _).
  apply list_elem_of_In, in_map_iff in Hrow as (muo & [= -> _] & Hrow).
  apply list_elem_of_In, elem_of_leftJoin in Hrow as (oid & Hrow & Ho).
  apply list_elem_of_In, in_map_iff in Hrow as (mu & [= -> <-] & Hrow).
  apply list_elem_of_In, elem_of_leftJoin in Hrow as (uid & Hrow & Hu).
  apply list_elem_of_In, in_map_iff in Hrow as (row' & [= -> <-] & Hrow).
  destruct oo as [o|]; [| done]. destruct ou as [u|]; [| done].
  simpl in *. destruct Ho as [Ho Hoid]. destruct Hu as [Hu Huid].
  apply bool_decide_eq_true in Horg, Huser, Hoid, Huid.
  exists row, u, o. split_and!; try done. by apply list_elem_of_In.
Qed.

(** X17: no attribute value crosses tenants or users. Every name in the
    resolved map is the name of an attribute of the organization asked for,
    and every string in it is either the default of such an attribute of
    that name or a value stored for the user asked for as a member of that
    organization. *)
Theorem attribute_values_stay_within_organization_and_user w
    (org user n : string) v :
  attribute_values w org user !! n = Some v →
  (∃ a o, a ∈ user_attributes (database w) ∧
          o ∈ organizations (database w) ∧
          ua_organization_id a = organization_id o ∧
          organization_uuid o = org ∧ name a = n) ∧
  ∀ text, v = AttrString text →
    (∃ a o, a ∈ user_attributes (database w) ∧
            o ∈ organizations (database w) ∧
            ua_organization_id a = organization_id o ∧
            organization_uuid o = org ∧ name a = n ∧
            attribute_default a = Some text) ∨
    (∃ row u o,
       row ∈ organization_member_user_attributes (database w) ∧
       u ∈ users (database w) ∧ o ∈ organizations (database w) ∧
       ma_user_id row = user_id u ∧ user_uuid u = user ∧
       ma_organization_id row = organization_id o ∧
       organization_uuid o = org ∧ value row = text).
Proof.
  unfold attribute_values. rewrite combine_values_lookup.
  destruct (last_named n (select_attribute_defaults w org)) as [d|] eqn:Hd;
    [| done].
  apply last_named_elem_of, elem_of_select_attribute_defaults in Hd
    as (a & o & Ha & Ho & Hid & Horg & Hname & Hdefault).
  simpl. intros [= <-]. split; [by exists a, o |].
  intros text. unfold value_or_default, property. simpl.
  rewrite userValuesMap_lookup.
  destruct (last_named n _) as [override|] eqn:Hoverride; simpl.
  - destruct (truthy_string override).
    + intros [= ->]. right.
      apply last_named_elem_of, list_elem_of_In, in_map_iff in Hoverride
        as ([nm v'] & [= _ ->] & Hrow).
      by apply list_elem_of_In, elem_of_select_user_values in Hrow.
    + destruct d as [d|]; [| done]. intros [= ->]. left. by exists a, o.
  - case_bool_decide; [done |].
    destruct d as [d|]; [| done]. intros [= ->]. left. by exists a, o.
Qed.

Lemma leftJoin_app {L R J} (on : J → R → bool) (l1 l2 : list (L * J))
    (right : list R) :
  leftJoin on (l1 ++ l2) right = leftJoin on l1 right ++ leftJoin on l2 right.
Proof. unfold leftJoin. apply flat_map_app. Qed.

(** The second query works row by row on
    [organization_member_user_attributes]. *)
Lemma select_user_values_app w (org user : string) ms1 ms2 :
  select_user_values (with_member_attributes (ms1 ++ ms2) w) org user
  = select_user_values (with_member_attributes ms1 w) org user
    ++ select_user_values (with_member_attributes ms2 w) org user.
Proof.
  unfold select_user_values, with_member_attributes. cbn -[leftJoin].
  by rewrite !map_app, !leftJoin_app, !map_app, !leftJoin_app, !map_app,
    !leftJoin_app, List.filter_app, !map_app.
Qed.

Lemma select_user_values_other_user w (org user : string) row :
  (∀ u, u ∈ users (database w) → user_id u = ma_user_id row →
        user_uuid u ≠ user) →
  select_user_values (with_member_attributes [row] w) org user = [].
Proof.
  intros Hother.
  destruct (select_user_values _ org user) as [|[nm v] rest] eqn:Hrows;
    [done |].
  assert ((nm, v) ∈ select_user_values (with_member_attributes [row] w)
                      org user) as Hin.
  { rewrite Hrows. apply list_elem_of_here. }
  apply elem_of_select_user_values in Hin
    as (row' & u & o & Hrow & Hu & _ & Hid & Huuid & _).
  simpl in Hrow, Hu. apply list_elem_of_singleton in Hrow as ->.
  exfalso. by apply (Hother u).
Qed.

(** X18: the values stored for other users do not interfere. Adding, at
    any place of [organization_member_user_attributes], a row whose user is
    not the user asked for leaves the resolved attribute values as they
    are. *)
Theorem other_users_values_do_not_interfere w (org user : string) ms1 row ms2 :
  organization_member_user_attributes (database w) = ms1 ++ ms2 →
  (∀ u, u ∈ users (database w) → user_id u = ma_user_id row →
        user_uuid u ≠ user) →
  attribute_values (with_member_attributes (ms1 ++ row :: ms2) w) org user
  = attribute_values w org user.
Proof.
  intros Hmembers Hother. unfold attribute_values. cbv zeta.
  change (select_attribute_defaults (with_member_attributes _ w) org)
    with (select_attribute_defaults w org).
  f_equal. f_equal.
  change (select_user_values w org user)
    with (select_user_values
            (with_member_attributes
               (organization_member_user_attributes (database w)) w)
            org user).
  rewrite Hmembers.
  change (row :: ms2) with ([row] ++ ms2).
  rewrite !select_user_values_app.
  by rewrite (select_user_values_other_user w org user row Hother).
Qed.

(** * Further properties of [runMetricQuery] as a whole *)

(** X19: what is cached is what was returned. When caching is enabled and
    [runMetricQuery] returns [cacheHit: false], the invocation has issued an
    upload under the key of (project, returned query text), with the tags of
    the caller, whose body is the serialization of the warehouse results the
    returned rows come from. *)
Theorem returned_miss_is_written_back w (org p user : string) mq tags explore
    m res :
  (runMetricQuery w org p user mq tags explore m).1 = Fulfilled res →
  resultsCache_enabled w = true →
  cacheHit (mq_cacheMetadata res) = false →
  ∃ client wr buffer,
    warehouse_runQuery w client (mq_query res) tags = Fulfilled wr ∧
    mq_rows res = rows wr ∧
    JSON_stringify wr = Some buffer ∧
    S3UploadResults (queryHash p (mq_query res)) buffer tags
      ∈ trace (runMetricQuery w org p user mq tags explore m).2.
Proof.
  intros Hres Hon Hmiss.
  destruct (runMetricQuery_fulfilled _ _ _ _ _ _ _ _ _ Hres)
    as (client & tunnel & m1 & results & m2 & _ & Hstep & -> & Hrows & Hmeta).
  destruct (read_results_cache w (queryHash p (mq_query res)) m1)
    as [[[served|]|e] m'] eqn:Hread.
  - rewrite (getResultsFromCacheOrWarehouse_served _ _ _ _ _ _ _ _ _ Hread)
      in Hstep.
    injection Hstep as -> _.
    assert ((read_results_cache w (queryHash p (mq_query res)) m1).1
            = Fulfilled (Some results)) as Hserved by by rewrite Hread.
    destruct (read_results_cache_hit _ _ _ _ Hserved)
      as (? & ? & ? & ? & _ & _ & _ & _ & _ & _ & _ & _ & Hhit).
    by rewrite Hmeta, Hhit in Hmiss.
  - rewrite (getResultsFromCacheOrWarehouse_miss _ _ _ _ _ _ _ _ Hread)
      in Hstep.
    destruct (warehouse_runQuery w client (mq_query res) tags) as [wr|e]
      eqn:Hwr; [| done].
    rewrite write_results_cache_steps, Hon in Hstep.
    destruct (JSON_stringify wr) as [buffer|] eqn:Hbuffer; [| done].
    injection Hstep as <- <-.
    exists client, wr, buffer. split_and!; [done | by rewrite Hrows | done |].
    simpl. apply elem_of_app. left. apply elem_of_app. right.
    apply list_elem_of_here.
  - by rewrite (getResultsFromCacheOrWarehouse_lookup_rejected
                  _ _ _ _ _ _ _ _ _ Hread) in Hstep.
Qed.

(** X20: the query text [runMetricQuery] returns is the text the query
    builder produced for the resolved client and for the attribute values of
    the (organization, user) of the call, and it is that text which was
    looked up in the cache or run on the warehouse: on a hit the payload
    stored under its key was read, on a miss the resolved client ran it with
    the caller's tags. *)
Theorem returned_query_is_the_one_built_and_used w (org p user : string) mq
    tags explore m res :
  (runMetricQuery w org p user mq tags explore m).1 = Fulfilled res →
  ∃ client compiled,
    cachedWarehouseClients (runMetricQuery w org p user mq tags explore m).2
      !! p = Some client ∧
    queryCompiler_compileMetricQuery explore mq client = Some compiled ∧
    queryBuilder_buildQuery explore compiled client
      (attribute_values w org user)
      = Some (mq_query res, mq_hasExampleMetric res) ∧
    (if cacheHit (mq_cacheMetadata res)
     then S3GetResults (queryHash p (mq_query res))
     else WarehouseRunQuery client (mq_query res) tags)
      ∈ trace (runMetricQuery w org p user mq tags explore m).2.
Proof.
  rewrite runMetricQuery_steps.
  destruct (getWarehouseClient w p m) as [[[client tunnel]|e] m1] eqn:Hclient;
    [| done].
  apply getWarehouseClient_fulfilled in Hclient as (_ & _ & _ & Hentry & _).
  destruct (queryCompiler_compileMetricQuery explore mq client)
    as [compiled|] eqn:Hcompiled; [| done].
  destruct (queryBuilder_buildQuery _ _ _ _) as [[query hem]|] eqn:Hbuilt;
    [| done].
  pose proof (getResultsFromCacheOrWarehouse_keeps_registry w p client query
                mq tags m1) as Hkept.
  destruct (getResultsFromCacheOrWarehouse w p client query mq tags m1)
    as [[results|e] m2] eqn:Hstep; [| done].
  destruct (ssh_disconnect w); [| done].
  simpl in *. intros [= <-]. simpl.
  exists client, compiled. rewrite Hkept. split_and!; try done.
  apply elem_of_app. left.
  destruct (read_results_cache w (queryHash p query) m1)
    as [[[served|]|e] m'] eqn:Hread.
  - rewrite (getResultsFromCacheOrWarehouse_served _ _ _ _ _ _ _ _ _ Hread)
      in Hstep.
    injection Hstep as -> ->.
    assert ((read_results_cache w (queryHash p query) m1).1
            = Fulfilled (Some results)) as Hserved by by rewrite Hread.
    destruct (read_results_cache_hit _ _ _ _ Hserved)
      as (config & head & lastModified & text & Hconfig & Hon & Hhead & Hlast
          & Hage & Hentry' & Htext & Hparsed & Hhit).
    rewrite Hhit. simpl.
    rewrite (read_results_cache_served _ _ m1 _ _ _ _ _ Hconfig Hon Hhead Hlast
               Hage Hentry' Htext Hparsed) in Hread.
    injection Hread as _ <-. simpl.
    apply elem_of_app. right. apply list_elem_of_here.
  - destruct (getResultsFromCacheOrWarehouse_miss_trace w p client query mq
                tags _ _ Hread) as [(writes & Htrace & _) Hresults].
    rewrite Hstep in Htrace, Hresults. simpl in Htrace, Hresults.
    destruct (Hresults results eq_refl) as (wr & _ & ->). simpl.
    rewrite Htrace. apply elem_of_app. right. apply list_elem_of_here.
  - by rewrite (getResultsFromCacheOrWarehouse_lookup_rejected
                  _ _ _ _ _ _ _ _ _ Hread) in Hstep.
Qed.

End Properties.

(** * The sample deployment, run *)

(** ** The tunnel on the failure paths *)

(** C1: project [p2] is reached through an SSH tunnel and the warehouse
    refuses the query. [runMetricQuery] and [runQuery] both throw the
    warehouse's error after the tunnel was connected, and no disconnect has
    been invoked when they complete. *)
Theorem tunnel_left_open_when_warehouse_throws :
  let run := sample_runMetricQuery world_warehouse_down "p2" fresh_model in
  let direct := sample_runQuery world_warehouse_down "p2" fresh_model in
  run.1 = Rejected (ExternalError FromWarehouse) ∧
  count_events is_connect (trace run.2) = 1 ∧
  count_events is_disconnect (trace run.2) = 0 ∧
  direct.1 = Rejected (ExternalError FromWarehouse) ∧
  count_events is_connect (trace direct.2) = 1 ∧
  count_events is_disconnect (trace direct.2) = 0.
Proof. vm_compute. by repeat split. Qed.

(** The same call with a warehouse that answers closes the tunnel once. *)
Example tunnel_closed_once_when_warehouse_answers :
  let run := sample_runMetricQuery sample_world "p2" fresh_model in
  (∃ res, run.1 = Fulfilled res) ∧
  count_events is_connect (trace run.2) = 1 ∧
  count_events is_disconnect (trace run.2) = 1.
Proof. vm_compute. by eauto. Qed.

(** ** Failing cache reads *)

(** C2: caching is enabled and the store holds a fresh entry whose
    metadata can be read and whose payload cannot. The failure of the
    payload request reaches the caller of [runMetricQuery]: the call is
    rejected with the store's error, the warehouse is never asked, and the
    tunnel stays open. *)
Theorem unreadable_payload_reaches_the_caller :
  let run := sample_runMetricQuery world_payload_unreadable "p1" fresh_model in
  run.1 = Rejected (ExternalError FromS3) ∧
  trace run.2 =
    [TunnelConnected pg_direct; S3GetResultsMetadata (sample_key "p1");
     S3GetResults (sample_key "p1")] ∧
  count_events is_warehouse_run (trace run.2) = 0.
Proof. vm_compute. by repeat split. Qed.

(** A failing metadata request, on the other hand, is recovered. *)
Example unreadable_metadata_falls_through :
  let run := sample_runMetricQuery world_metadata_unreadable "p1" fresh_model in
  ∃ res, run.1 = Fulfilled res ∧
    mq_rows res = sample_rows ∧
    mq_cacheMetadata res = mkCacheMetadata false None.
Proof. vm_compute. by eauto. Qed.

(** A fresh, readable entry is served without asking the warehouse. *)
Example fresh_entry_is_served :
  let run := sample_runMetricQuery world_fresh_entry "p1" fresh_model in
  ∃ res, run.1 = Fulfilled res ∧
    mq_rows res = cached_rows ∧
    mq_cacheMetadata res = mkCacheMetadata true (LastModified fresh_head) ∧
    count_events is_warehouse_run (trace run.2) = 0.
Proof. vm_compute. by eauto. Qed.

(** The same entry, read one hour later by the clock, is no longer served. *)
Example entry_expires_with_the_clock :
  let later := with_now (1700000000000 + 3600000) world_fresh_entry in
  let run := sample_runMetricQuery later "p1" fresh_model in
  ∃ res, run.1 = Fulfilled res ∧
    mq_rows res = sample_rows ∧
    mq_cacheMetadata res = mkCacheMetadata false None ∧
    count_events is_warehouse_run (trace run.2) = 1.
Proof. vm_compute. by eauto. Qed.

(** ** The write-back on the sample deployment *)

(** C7: caching is enabled, the store holds no entry and the warehouse
    answers. When the store refuses the upload the call returns the
    warehouse's rows all the same. When the results cannot be serialized
    for the write, the call is rejected: the failure of the write-back
    reaches the caller of [runMetricQuery] after the warehouse has run, the
    rows are lost, nothing is uploaded and the tunnel stays open. *)
Theorem unserializable_results_reject_the_call :
  let refused := sample_runMetricQuery world_upload_fails "p1" fresh_model in
  let run :=
    runMetricQuery (lib := unserializable_collaborators) sample_world "org-1"
      "p1" "user-1" "orders" (Some sample_tags) "explore" fresh_model in
  refused.1 = Fulfilled sample_miss ∧
  warehouse_runQuery sample_world (mkClient 0 pg_direct) "SELECT orders"
    (Some sample_tags) = Fulfilled sample_results ∧
  run.1 = Rejected (ExternalError FromJson) ∧
  trace run.2 =
    [TunnelConnected pg_direct;
     S3GetResultsMetadata
       (queryHash (lib := unserializable_collaborators) "p1" "SELECT orders");
     WarehouseRunQuery (mkClient 0 pg_direct) "SELECT orders"
       (Some sample_tags)] ∧
  count_events is_cache_write (trace run.2) = 0 ∧
  count_events is_disconnect (trace run.2) = 0.
Proof. vm_compute. by repeat split. Qed.

(** ** The registry and tunnelled sessions *)


Lemma fresh_model_registry_wf : registry_wf fresh_model.
Proof.
  intros k c Hc. unfold fresh_model in Hc. simpl in Hc.
  by rewrite lookup_empty in Hc.
Qed.

(** The comparison of credentials at work on project [p1], no tunnel: the
    second resolution finds the client the first one stored, with equal
    credentials, and returns that very instance. *)
Lemma getWarehouseClient_reuses_client_iff_credentials_equal_witness :
  let m1 := (sample_getWarehouseClient sample_world "p1" fresh_model).2 in
  (getWarehouseCredentialsForProject (lib := stub_collaborators) sample_world
     "p1" m1).1 = Fulfilled pg_direct ∧
  ssh_connect sample_world pg_direct = Fulfilled pg_direct ∧
  registry_wf m1 ∧
  ∃ client m',
    sample_getWarehouseClient sample_world "p1" m1
      = (Fulfilled (client, mkSshTunnel pg_direct), m') ∧
    cachedWarehouseClients m1 !! "p1" = Some client ∧
    allocated m' = allocated m1.
Proof.
  cbv zeta.
  set (m1 := (sample_getWarehouseClient sample_world "p1" fresh_model).2).
  assert (registry_wf m1) as Hwf.
  { apply getWarehouseClient_preserves_registry_wf, fresh_model_registry_wf. }
  split; [reflexivity |]. split; [reflexivity |]. split; [exact Hwf |].
  destruct (getWarehouseClient_reuses_client_iff_credentials_equal
              (lib := stub_collaborators) sample_world "p1" m1
              pg_direct pg_direct eq_refl eq_refl Hwf)
    as (client & m' & Hrun & _ & _ & Hiff & Hhit & _).
  assert (∃ existing, cachedWarehouseClients m1 !! "p1" = Some existing ∧
                      credentials existing = pg_direct) as Hentry.
  { exists (mkClient 0 pg_direct). split; [by vm_compute | reflexivity]. }
  exists client, m'. split; [exact Hrun |].
  split; [by apply Hiff | by apply Hhit].
Defined.

(** A change of the stored credentials replaces the client: the registry
    holds a client for [p1] built from other credentials. *)
Example changed_credentials_replace_the_client :
  let stale_client := mkClient 0 pg_ssh in
  let m := mkModel {[ "p1" := stale_client ]} 1 [] [] in
  let run := sample_getWarehouseClient sample_world "p1" m in
  run.1 = Fulfilled (mkClient 1 pg_direct, mkSshTunnel pg_direct) ∧
  cachedWarehouseClients run.2 !! "p1" = Some (mkClient 1 pg_direct).
Proof. by vm_compute. Qed.

(** ** Attribute values of [user-1] in [org-1] *)

(** C5, as stated, fails: the user's value for [region] is the empty
    string and the organization default wins; the user's value for [tier],
    an attribute the organization query does not return, is dropped. The
    union the spec describes keeps both. *)
Lemma attribute_overrides_are_not_the_union :
  let result := attribute_values sample_world "org-1" "user-1" in
  let union := spec_attribute_overrides sample_world "org-1" "user-1" in
  (getAttributeValuesForOrgMember sample_world "org-1" "user-1" fresh_model).1
    = Fulfilled result ∧
  result !! "region" = Some (AttrString "EU") ∧
  union !! "region" = Some (AttrString EmptyString) ∧
  result !! "tier" = None ∧
  union !! "tier" = Some (AttrString "gold") ∧
  result ≠ union.
Proof.
  cbv zeta. split; [reflexivity |].
  assert (attribute_values sample_world "org-1" "user-1" !! "tier" = None)
    as Hcode by (by vm_compute).
  assert (spec_attribute_overrides sample_world "org-1" "user-1" !! "tier"
          = Some (AttrString "gold")) as Hspec by (by vm_compute).
  split; [by vm_compute |]. split; [by vm_compute |].
  split; [exact Hcode |]. split; [exact Hspec |].
  intros Heq. rewrite Heq, Hspec in Hcode. discriminate.
Qed.

(** The value that does override: [team] has no default and the user's
    value [data] is not empty. *)
Lemma attribute_values_prefer_non_empty_user_value_witness :
  ("team" ∉ Object_prototype) ∧
  ∃ result,
    getAttributeValuesForOrgMember sample_world "org-1" "user-1" fresh_model
      = (Fulfilled result, fresh_model) ∧
    result !! "team" = Some (AttrString "data").
Proof.
  assert ("team" ∉ Object_prototype) as Hname by compute_done.
  split; [exact Hname |].
  destruct (attribute_values_prefer_non_empty_user_value sample_world "org-1"
              "user-1" fresh_model "team" Hname) as (result & Hrun & Hteam).
  exists result. split; [exact Hrun |]. by rewrite Hteam.
Defined.

(** ** The cache on the sample deployment *)

(** The entry is one hour old to the millisecond, the threshold is one
    hour: the warehouse is asked. *)
Lemma stale_entry_is_never_served_witness :
  (cacheStateTimeSeconds (mkResultsCacheConfig true 3600) * 1000
   ≤ now world_stale_entry - 1699996400000)%Z ∧
  let run := sample_runMetricQuery world_stale_entry "p1" fresh_model in
  ∃ evs,
    trace run.2
      = trace (sample_getWarehouseClient world_stale_entry "p1" fresh_model).2
        ++ evs ∧
    Forall (λ e, is_payload_read e = false) evs ∧
    WarehouseRunQuery (mkClient 0 pg_direct) "SELECT orders" (Some sample_tags)
      ∈ evs.
Proof.
  assert (cacheStateTimeSeconds (mkResultsCacheConfig true 3600) * 1000
          ≤ now world_stale_entry - 1699996400000)%Z as Hage by (by vm_compute).
  split; [exact Hage |].
  destruct (stale_entry_is_never_served (lib := stub_collaborators)
              world_stale_entry "org-1" "p1" "user-1" "orders"
              (Some sample_tags) "explore" fresh_model
              (mkClient 0 pg_direct) (mkSshTunnel pg_direct)
              (sample_getWarehouseClient world_stale_entry "p1" fresh_model).2
              "orders" "SELECT orders" false
              (mkResultsCacheConfig true 3600) stale_head 1699996400000
              eq_refl eq_refl eq_refl eq_refl eq_refl eq_refl Hage)
    as (_ & evs & Htrace & Hevs & Hrun & _).
  by exists evs.
Defined.

(** The upload is refused and nobody notices. *)
Lemma cache_write_is_fire_and_forget_witness :
  resultsCache_enabled sample_world = true ∧
  JSON_stringify (Collaborators := stub_collaborators) sample_results
    = Some "fresh payload" ∧
  sample_runMetricQuery world_upload_fails "p1" fresh_model
    = sample_runMetricQuery sample_world "p1" fresh_model ∧
  unhandledRejections (sample_runMetricQuery sample_world "p1" fresh_model).2
    = [].
Proof.
  split; [reflexivity |]. split; [reflexivity |].
  destruct (cache_write_is_fire_and_forget (lib := stub_collaborators)
              sample_world "org-1" "p1" "user-1" "orders" (Some sample_tags)
              "explore" fresh_model
              (λ _ _ _, Rejected (ExternalError FromS3)) (sample_key "p1")
              sample_results "fresh payload" fresh_model eq_refl eq_refl)
    as (_ & Hsame & Hhandled).
  split; [exact Hsame | exact Hhandled].
Defined.

(** Caching is off while the store holds fresh entries: none is read. *)
Lemma caching_disabled_bypasses_result_cache_witness :
  resultsCache_enabled world_caching_off = false ∧
  ∃ evs,
    trace (sample_runMetricQuery world_caching_off "p1" fresh_model).2
      = trace fresh_model ++ evs ∧
    Forall (λ e, is_cache_read e = false ∧ is_cache_write e = false) evs.
Proof.
  split; [reflexivity |].
  destruct (caching_disabled_bypasses_result_cache (lib := stub_collaborators)
              world_caching_off "org-1" "p1" "user-1" "orders"
              (Some sample_tags) "explore" fresh_model eq_refl)
    as (_ & _ & evs & Htrace & Hevs & _).
  by exists evs.
Defined.

(** Two query texts of project [p1]. *)
Lemma queryHash_deterministic_and_injective_up_to_sha256_witness :
  "SELECT a" ≠ "SELECT b" ∧
  "p1" +:+ "." +:+ "SELECT a" ≠ "p1" +:+ "." +:+ "SELECT b".
Proof.
  assert ("SELECT a" ≠ "SELECT b") as Hne by discriminate.
  split; [exact Hne |].
  exact (proj1 (proj2
    (queryHash_deterministic_and_injective_up_to_sha256
       (lib := stub_collaborators) sample_world "p1" "SELECT a" "SELECT b"
       (mkClient 0 pg_direct) "orders" (Some sample_tags) Hne))).
Defined.

(** * The further properties on the sample deployment *)

(** A fresh, readable entry of project [p1]. *)
Lemma fresh_entry_is_returned_without_warehouse_witness :
  (now world_fresh_entry - 1699999999000
   < cacheStateTimeSeconds (mkResultsCacheConfig true 3600) * 1000)%Z ∧
  getResultsFromCacheOrWarehouse (lib := stub_collaborators) world_fresh_entry
    "p1" (mkClient 0 pg_direct) "SELECT orders" "orders" (Some sample_tags)
    fresh_model
  = (Fulfilled
       (mkQueryResults cached_rows
          (mkCacheMetadata true (Some 1699999999000%Z))),
     record (S3GetResults (sample_key "p1"))
       (record (S3GetResultsMetadata (sample_key "p1")) fresh_model)).
Proof.
  assert (now world_fresh_entry - 1699999999000
          < cacheStateTimeSeconds (mkResultsCacheConfig true 3600) * 1000)%Z
    as Hage by (by vm_compute).
  split; [exact Hage |].
  apply (fresh_entry_is_returned_without_warehouse (lib := stub_collaborators)
           world_fresh_entry "p1" (mkClient 0 pg_direct) "SELECT orders"
           "orders" (Some sample_tags) fresh_model
           (mkResultsCacheConfig true 3600) fresh_head 1699999999000
           "cached payload" cached_rows eq_refl eq_refl eq_refl eq_refl Hage
           eq_refl); [discriminate | reflexivity].
Defined.

(** The hit of the sample call comes from an entry one second old. *)
Lemma cache_hit_comes_from_a_fresh_entry_witness :
  (sample_runMetricQuery world_fresh_entry "p1" fresh_model).1
    = Fulfilled sample_hit ∧
  cacheHit (mq_cacheMetadata sample_hit) = true ∧
  ∃ config head lastModified,
    resultsCache (lightdashConfig world_fresh_entry) = Some config ∧
    s3_getResultsMetadata world_fresh_entry (sample_key "p1")
      = Fulfilled (Some head) ∧
    LastModified head = Some lastModified ∧
    (now world_fresh_entry - lastModified
     < cacheStateTimeSeconds config * 1000)%Z.
Proof.
  assert ((sample_runMetricQuery world_fresh_entry "p1" fresh_model).1
          = Fulfilled sample_hit) as Hres by (by vm_compute).
  split; [exact Hres |]. split; [reflexivity |].
  destruct (cache_hit_comes_from_a_fresh_entry (lib := stub_collaborators)
              world_fresh_entry "org-1" "p1" "user-1" "orders"
              (Some sample_tags) "explore" fresh_model sample_hit Hres eq_refl)
    as (config & head & lastModified & text & Hconfig & _ & Hhead & Hlast
        & Hage & _).
  by exists config, head, lastModified.
Defined.

(** A gateway error page stored as payload: the warehouse is asked. *)
Lemma unusable_payload_falls_through_to_warehouse_witness :
  unusable_payload (lib := stub_collaborators)
    (mkGetObject (Some (Fulfilled "<html>503</html>"))) ∧
  (getResultsFromCacheOrWarehouse (lib := stub_collaborators)
     world_corrupt_payload "p1" (mkClient 0 pg_direct) "SELECT orders"
     "orders" (Some sample_tags) fresh_model).1
  = Fulfilled (mkQueryResults sample_rows (mkCacheMetadata false None)).
Proof.
  assert (unusable_payload (lib := stub_collaborators)
            (mkGetObject (Some (Fulfilled "<html>503</html>")))) as Hunusable
    by (right; reflexivity).
  split; [exact Hunusable |].
  assert (now world_corrupt_payload - 1699999999000
          < cacheStateTimeSeconds (mkResultsCacheConfig true 3600) * 1000)%Z
    as Hage by (by vm_compute).
  destruct (unusable_payload_falls_through_to_warehouse
              (lib := stub_collaborators) world_corrupt_payload "p1"
              (mkClient 0 pg_direct) "SELECT orders" "orders"
              (Some sample_tags) fresh_model (mkResultsCacheConfig true 3600)
              1699999999000 _ eq_refl eq_refl eq_refl Hage eq_refl Hunusable)
    as (_ & _ & Hreturns).
  apply (Hreturns sample_results eq_refl). by eexists.
Defined.

(** An empty store. *)
Lemma missing_metadata_falls_through_to_warehouse_witness :
  resultsCache_enabled sample_world = true ∧
  lastModified_of (s3_getResultsMetadata sample_world (sample_key "p1"))
    = None ∧
  (getResultsFromCacheOrWarehouse (lib := stub_collaborators) sample_world
     "p1" (mkClient 0 pg_direct) "SELECT orders" "orders" (Some sample_tags)
     fresh_model).1
  = Fulfilled (mkQueryResults sample_rows (mkCacheMetadata false None)).
Proof.
  split; [reflexivity |]. split; [reflexivity |].
  destruct (missing_metadata_falls_through_to_warehouse
              (lib := stub_collaborators) sample_world "p1"
              (mkClient 0 pg_direct) "SELECT orders" "orders"
              (Some sample_tags) fresh_model eq_refl eq_refl)
    as (_ & _ & Hreturns).
  apply (Hreturns sample_results eq_refl). by eexists.
Defined.

(** A payload request the store refuses. *)
Lemma payload_failure_rejects_the_step_witness :
  s3_getResults world_payload_unreadable (sample_key "p1")
    = Rejected (ExternalError FromS3) ∧
  (getResultsFromCacheOrWarehouse (lib := stub_collaborators)
     world_payload_unreadable "p1" (mkClient 0 pg_direct) "SELECT orders"
     "orders" (Some sample_tags) fresh_model).1
  = Rejected (ExternalError FromS3).
Proof.
  split; [reflexivity |].
  assert (now world_payload_unreadable - 1699999999000
          < cacheStateTimeSeconds (mkResultsCacheConfig true 3600) * 1000)%Z
    as Hage by (by vm_compute).
  by rewrite (payload_failure_rejects_the_step (lib := stub_collaborators)
                world_payload_unreadable "p1" (mkClient 0 pg_direct)
                "SELECT orders" "orders" (Some sample_tags) fresh_model
                (mkResultsCacheConfig true 3600) 1699999999000
                (ExternalError FromS3) eq_refl eq_refl eq_refl Hage
                (or_introl eq_refl)).
Defined.

(** [user-1] fills the cache from project [p1]; [user-2], with tags of his
    own, is served the entry. *)
Lemma cache_round_trip_witness :
  JSON_parse_rows (Collaborators := strict_collaborators) "fresh payload"
    = Some (rows sample_results) ∧
  let first :=
    getResultsFromCacheOrWarehouse (lib := strict_collaborators) sample_world
      "p1" (mkClient 0 pg_direct) "SELECT orders" "orders" (Some sample_tags)
      fresh_model in
  (getResultsFromCacheOrWarehouse (lib := strict_collaborators)
     world_uploaded_entry "p1" (mkClient 0 pg_direct) "SELECT orders" "orders"
     None first.2).1
  = Fulfilled
      (mkQueryResults sample_rows
         (mkCacheMetadata true (Some 1699999999000%Z))).
Proof.
  split; [reflexivity |].
  assert (now world_uploaded_entry - 1699999999000
          < cacheStateTimeSeconds (mkResultsCacheConfig true 3600) * 1000)%Z
    as Hage by (by vm_compute).
  assert ("fresh payload" ≠ EmptyString) as Htext by discriminate.
  destruct (cache_round_trip (lib := strict_collaborators) sample_world
              world_uploaded_entry "p1" "SELECT orders" (mkClient 0 pg_direct)
              (mkClient 0 pg_direct) "orders" "orders" (Some sample_tags) None
              fresh_model (mkResultsCacheConfig true 3600) fresh_head
              1699999999000 sample_results "fresh payload" eq_refl eq_refl
              eq_refl eq_refl eq_refl eq_refl eq_refl eq_refl Hage eq_refl
              Htext eq_refl) as (_ & _ & Hsecond & _).
  exact Hsecond.
Defined.

(** The tunnelled project [p2]: the tunnel hands out port 50000. *)
Lemma runMetricQuery_works_inside_the_tunnel_witness :
  (sample_runMetricQuery sample_world "p2" fresh_model).1
    = Fulfilled sample_miss ∧
  ∃ effective middle,
    trace (sample_runMetricQuery sample_world "p2" fresh_model).2
      = trace fresh_model
        ++ TunnelConnected effective :: middle ++ [TunnelDisconnect] ∧
    mq_warehouseType sample_miss = type effective.
Proof.
  assert ((sample_runMetricQuery sample_world "p2" fresh_model).1
          = Fulfilled sample_miss) as Hres by (by vm_compute).
  split; [exact Hres |].
  destruct (runMetricQuery_works_inside_the_tunnel (lib := stub_collaborators)
              sample_world "org-1" "p2" "user-1" "orders" (Some sample_tags)
              "explore" fresh_model sample_miss Hres)
    as (effective & middle & Htrace & _ & Htype).
  by exists effective, middle.
Defined.

(** The strict compiler refuses [no_such_field]. *)
Lemma compile_failure_leaves_tunnel_open_witness :
  let resolved :=
    getWarehouseClient (lib := strict_collaborators) sample_world "p1"
      fresh_model in
  resolved
    = (Fulfilled (mkClient 0 pg_direct, mkSshTunnel pg_direct), resolved.2) ∧
  queryCompiler_compileMetricQuery (Collaborators := strict_collaborators)
    "explore" "no_such_field" (mkClient 0 pg_direct) = None ∧
  runMetricQuery (lib := strict_collaborators) sample_world "org-1" "p1"
    "user-1" "no_such_field" (Some sample_tags) "explore" fresh_model
  = (Rejected (ExternalError FromCompiler), resolved.2) ∧
  trace resolved.2 = [TunnelConnected pg_direct].
Proof.
  cbv zeta.
  assert (getWarehouseClient (lib := strict_collaborators) sample_world "p1"
            fresh_model
          = (Fulfilled (mkClient 0 pg_direct, mkSshTunnel pg_direct),
             (getWarehouseClient (lib := strict_collaborators) sample_world
                "p1" fresh_model).2)) as Hclient by (by vm_compute).
  split; [exact Hclient |]. split; [reflexivity |].
  destruct (compile_failure_leaves_tunnel_open (lib := strict_collaborators)
              sample_world "org-1" "p1" "user-1" "no_such_field"
              (Some sample_tags) "explore" fresh_model _ _ _ Hclient
              (or_introl eq_refl)) as (Hrun & _ & Htrace).
  split; [exact Hrun | exact Htrace].
Defined.

(** The sample metric query compiles to [SELECT orders]. *)
Lemma compileMetricQuery_connects_and_compiles_only_witness :
  (compileMetricQuery (lib := stub_collaborators) sample_world "org-1" "p1"
     "user-1" "orders" "explore" fresh_model).1
    = Fulfilled ("SELECT orders", false) ∧
  ∃ effective,
    trace (compileMetricQuery (lib := stub_collaborators) sample_world "org-1"
             "p1" "user-1" "orders" "explore" fresh_model).2
    = trace fresh_model ++ [TunnelConnected effective].
Proof.
  assert ((compileMetricQuery (lib := stub_collaborators) sample_world "org-1"
             "p1" "user-1" "orders" "explore" fresh_model).1
          = Fulfilled ("SELECT orders", false)) as Hcompiled
    by (by vm_compute).
  split; [exact Hcompiled |].
  exact (proj1 (compileMetricQuery_connects_and_compiles_only
                  (lib := stub_collaborators) sample_world "org-1" "p1"
                  "user-1" "orders" (Some sample_tags) "explore" fresh_model
                  "SELECT orders" false Hcompiled)).
Defined.

(** The warehouse answers, the tunnel cannot be closed. *)
Lemma failed_disconnect_fails_the_call_witness :
  ssh_disconnect world_disconnect_fails = Rejected (ExternalError FromSsh) ∧
  ∀ res,
    (sample_runMetricQuery world_disconnect_fails "p1" fresh_model).1
    ≠ Fulfilled res.
Proof.
  split; [reflexivity |].
  exact (proj1 (failed_disconnect_fails_the_call (lib := stub_collaborators)
                  world_disconnect_fails "org-1" "p1" "user-1" "SELECT 1"
                  "orders" (Some sample_tags) sample_tags "explore"
                  fresh_model (ExternalError FromSsh) eq_refl)).
Defined.

(** Project [p4] has no credentials. *)
Lemma failed_resolution_changes_nothing_witness :
  (sample_getWarehouseClient sample_world "p4" fresh_model).1
    = Rejected
        (NotExistsError "Cannot find any warehouse credentials for project.") ∧
  sample_runMetricQuery sample_world "p4" fresh_model
    = (Rejected
         (NotExistsError "Cannot find any warehouse credentials for project."),
       fresh_model).
Proof.
  split; [reflexivity |].
  destruct (failed_resolution_changes_nothing (lib := stub_collaborators)
              sample_world "org-1" "p4" "user-1" "SELECT 1" "orders"
              (Some sample_tags) sample_tags "explore" fresh_model
              (NotExistsError
                 "Cannot find any warehouse credentials for project.")
              eq_refl) as (_ & Hrun & _).
  exact Hrun.
Defined.

(** Two resolutions of project [p1] in a row. *)
Lemma getWarehouseClient_twice_returns_the_same_client_witness :
  let first := sample_getWarehouseClient sample_world "p1" fresh_model in
  first = (Fulfilled (mkClient 0 pg_direct, mkSshTunnel pg_direct), first.2) ∧
  (sample_getWarehouseClient sample_world "p1" first.2).1
    = Fulfilled (mkClient 0 pg_direct, mkSshTunnel pg_direct).
Proof.
  cbv zeta.
  assert (sample_getWarehouseClient sample_world "p1" fresh_model
          = (Fulfilled (mkClient 0 pg_direct, mkSshTunnel pg_direct),
             (sample_getWarehouseClient sample_world "p1" fresh_model).2))
    as Hfirst by (by vm_compute).
  split; [exact Hfirst |].
  unfold sample_getWarehouseClient in *.
  by rewrite (getWarehouseClient_twice_returns_the_same_client
                (lib := stub_collaborators) sample_world "p1" fresh_model _ _
                _ Hfirst).
Defined.

(** Two project UUIDs and one query text. *)
Lemma queryHash_separates_dot_free_projects_witness :
  dot_free "3675b69e-8324-4110-bdca-059031aa8da3" = true ∧
  dot_free "7f1c0a52-0d1e-4c3b-9b1a-2f6d3c8e5a10" = true ∧
  "3675b69e-8324-4110-bdca-059031aa8da3" +:+ "." +:+ "SELECT 1"
  ≠ "7f1c0a52-0d1e-4c3b-9b1a-2f6d3c8e5a10" +:+ "." +:+ "SELECT 1".
Proof.
  split; [reflexivity |]. split; [reflexivity |].
  assert (("3675b69e-8324-4110-bdca-059031aa8da3", "SELECT 1")
          ≠ ("7f1c0a52-0d1e-4c3b-9b1a-2f6d3c8e5a10", "SELECT 1")) as Hne
    by discriminate.
  exact (proj1 (queryHash_separates_dot_free_projects
                  (lib := stub_collaborators)
                  "3675b69e-8324-4110-bdca-059031aa8da3" "SELECT 1"
                  "7f1c0a52-0d1e-4c3b-9b1a-2f6d3c8e5a10" "SELECT 1"
                  eq_refl eq_refl Hne)).
Defined.

(** [team] of [user-1] in [org-1]: the value stored for that user. *)
Lemma attribute_values_stay_within_organization_and_user_witness :
  attribute_values sample_world "org-1" "user-1" !! "team"
    = Some (AttrString "data") ∧
  ∃ a o, a ∈ user_attributes (database sample_world) ∧
         o ∈ organizations (database sample_world) ∧
         ua_organization_id a = organization_id o ∧
         organization_uuid o = "org-1" ∧ name a = "team".
Proof.
  assert (attribute_values sample_world "org-1" "user-1" !! "team"
          = Some (AttrString "data")) as Hteam by (by vm_compute).
  split; [exact Hteam |].
  exact (proj1 (attribute_values_stay_within_organization_and_user
                  sample_world "org-1" "user-1" "team" _ Hteam)).
Defined.

(** One more value for [user-2] changes nothing for [user-1]. *)
Lemma other_users_values_do_not_interfere_witness :
  attribute_values
    (with_member_attributes
       (organization_member_user_attributes sample_database
          ++ other_users_row :: [])
       sample_world) "org-1" "user-1"
  = attribute_values sample_world "org-1" "user-1".
Proof.
  apply (other_users_values_do_not_interfere sample_world "org-1" "user-1"
           (organization_member_user_attributes sample_database)
           other_users_row []).
  - symmetry. apply app_nil_r.
  - intros u Hu Hid Huuid. simpl in Hu.
    apply elem_of_cons in Hu as [-> | Hu]; [discriminate Hid |].
    apply elem_of_cons in Hu as [-> | Hu]; [discriminate Huuid |].
    by apply elem_of_nil in Hu.
Defined.

(** The miss of the sample call is uploaded. *)
Lemma returned_miss_is_written_back_witness :
  (sample_runMetricQuery sample_world "p1" fresh_model).1
    = Fulfilled sample_miss ∧
  resultsCache_enabled sample_world = true ∧
  ∃ buffer,
    S3UploadResults (sample_key "p1") buffer (Some sample_tags)
      ∈ trace (sample_runMetricQuery sample_world "p1" fresh_model).2.
Proof.
  assert ((sample_runMetricQuery sample_world "p1" fresh_model).1
          = Fulfilled sample_miss) as Hres by (by vm_compute).
  split; [exact Hres |]. split; [reflexivity |].
  destruct (returned_miss_is_written_back (lib := stub_collaborators)
              sample_world "org-1" "p1" "user-1" "orders" (Some sample_tags)
              "explore" fresh_model sample_miss Hres eq_refl eq_refl)
    as (client & wr & buffer & _ & _ & _ & Hupload).
  by exists buffer.
Defined.

(** The text of the sample call. *)
Lemma returned_query_is_the_one_built_and_used_witness :
  (sample_runMetricQuery sample_world "p1" fresh_model).1
    = Fulfilled sample_miss ∧
  ∃ client,
    WarehouseRunQuery client "SELECT orders" (Some sample_tags)
      ∈ trace (sample_runMetricQuery sample_world "p1" fresh_model).2.
Proof.
  assert ((sample_runMetricQuery sample_world "p1" fresh_model).1
          = Fulfilled sample_miss) as Hres by (by vm_compute).
  split; [exact Hres |].
  destruct (returned_query_is_the_one_built_and_used
              (lib := stub_collaborators) sample_world "org-1" "p1" "user-1"
              "orders" (Some sample_tags) "explore" fresh_model sample_miss
              Hres) as (client & compiled & _ & _ & _ & Hused).
  by exists client.
Defined.
